(** * Retail analytics pipeline: the cleaning stage of [data_pipeline.py]

    A shallow embedding of the three table cleaners of
    [src/python/data_pipeline.py] ([clean_sales_fact], [clean_customer_clv],
    [clean_rfm]) together with the pandas operations they call, and the
    properties of the specification proved (or refuted) on them.

    Conventions of the embedding.
    - A numeric cell is an [option Q]: [None] is the NaN/NULL of pandas, a
      present value is an exact rational.  float64 rounding is not modelled;
      every comparison the cleaners make is modelled exactly.
    - A text cell is an [option string] over ASCII code points.
    - A Python exception is the [Raise] branch of [result].
    - Column writes of the form [df[c].fillna(v, inplace=True)] update the
      frame, as they do in pandas without copy-on-write, the behaviour the
      script is written for. *)

From Stdlib Require Import String Ascii DecimalString.
From Stdlib Require Import List ZArith QArith Qround Lqa Lia Bool.
From Stdlib Require Import Sorting.Mergesort Sorting.Sorted Sorting.Permutation.
From Stdlib Require Import Orders RelationClasses.
Import ListNotations.

Local Open Scope Q_scope.

(** ** Exceptions and the result monad *)

Inductive exn : Type :=
| ValueError (msg : string).

Inductive result (A : Type) : Type :=
| Ok (a : A)
| Raise (e : exn).
Arguments Ok {A} a.
Arguments Raise {A} e.

Definition bind {A B : Type} (m : result A) (k : A -> result B) : result B :=
  match m with
  | Ok a => k a
  | Raise e => Raise e
  end.

Notation "x <- m ;; k" := (bind m (fun x => k))
  (at level 61, m at next level, right associativity).

Fixpoint mapM {A B : Type} (f : A -> result B) (l : list A) : result (list B) :=
  match l with
  | [] => Ok []
  | a :: l' => b <- f a ;; bs <- mapM f l' ;; Ok (b :: bs)
  end.

(** ** Cells *)

Definition num : Type := option Q.
Definition text : Type := option string.

Record date : Type := mkDate { year : Z; month : Z; day : Z }.
Definition datecell : Type := option date.

Definition Qlt_bool (a b : Q) : bool := negb (Qle_bool b a).

Definition num_eqb (a b : num) : bool :=
  match a, b with
  | Some x, Some y => Qeq_bool x y
  | None, None => true
  | _, _ => false
  end.

Definition text_eqb (a b : text) : bool :=
  match a, b with
  | Some x, Some y => String.eqb x y
  | None, None => true
  | _, _ => false
  end.

Definition date_eqb (a b : datecell) : bool :=
  match a, b with
  | Some x, Some y =>
      Z.eqb (year x) (year y) && Z.eqb (month x) (month y) && Z.eqb (day x) (day y)
  | None, None => true
  | _, _ => false
  end.

(** ** The pandas operations the cleaners call *)

Module Pandas.

(** Sorting of the present values, as [numpy] does before taking order
    statistics. *)
Module QOrder <: TotalLeBool.

Definition t : Type := Q.

Definition leb : t -> t -> bool := Qle_bool.

Theorem leb_total : forall a1 a2, leb a1 a2 = true \/ leb a2 a1 = true.
Proof.
  intros a1 a2. unfold leb. rewrite !Qle_bool_iff.
  destruct (Qlt_le_dec a1 a2) as [H | H]; [left; apply Qlt_le_weak, H | right; exact H].
Qed.

End QOrder.

Module QSort := Sort QOrder.

(** [Series.dropna]. *)
Fixpoint dropna (xs : list num) : list Q :=
  match xs with
  | [] => []
  | Some v :: xs' => v :: dropna xs'
  | None :: xs' => dropna xs'
  end.

(** [Series.fillna(value)]: a NaN fill value leaves the cell as it is. *)
Definition fillna (value : num) (x : num) : num :=
  match x with
  | Some v => Some v
  | None => value
  end.

(** Linear interpolation between the two order statistics around position
    [(n-1)*q] of the sorted present values ([numpy.percentile], method
    "linear", what [Series.quantile] uses). *)
Definition quantile_sorted (a : list Q) (q : Q) : Q :=
  let n := Z.of_nat (length a) in
  let pos := inject_Z (n - 1) * q in
  let lo := Qfloor pos in
  let hi := Z.min (lo + 1) (n - 1) in
  let frac := pos - inject_Z lo in
  let alo := nth (Z.to_nat lo) a 0 in
  let ahi := nth (Z.to_nat hi) a 0 in
  alo + (ahi - alo) * frac.

(** [Series.quantile(q)]: NaN on a column without present values. *)
Definition quantile (xs : list num) (q : Q) : num :=
  match dropna xs with
  | [] => None
  | v :: vs => Some (quantile_sorted (QSort.sort (v :: vs)) q)
  end.

(** [Series.median()]: the middle present value, or the mean of the two
    middle ones. *)
Definition median (xs : list num) : num :=
  match dropna xs with
  | [] => None
  | v :: vs =>
      let a := QSort.sort (v :: vs) in
      let n := length a in
      if Nat.even n
      then Some ((nth (n / 2 - 1) a 0 + nth (n / 2) a 0) / 2)
      else Some (nth (n / 2) a 0)
  end.

(** [Series.clip(upper=cap)]: a NaN bound clips nothing. *)
Definition clip_upper (cap : num) (x : num) : num :=
  match x, cap with
  | Some v, Some c => if Qlt_bool c v then Some c else Some v
  | _, _ => x
  end.

(** [Series.round(1)]: to one decimal, halves to the even neighbour. *)
Definition round_half_even (x : Q) : Z :=
  let f := Qfloor x in
  let r := x - inject_Z f in
  if Qlt_bool r (1 # 2) then f
  else if Qlt_bool (1 # 2) r then (f + 1)%Z
  else if Z.even f then f else (f + 1)%Z.

Definition round1 (x : num) : num :=
  option_map (fun v => inject_Z (round_half_even (v * 10)) / 10) x.

(** [algorithms.unique]: first occurrences, in order. *)
Fixpoint unique (bins : list Q) : list Q :=
  match bins with
  | [] => []
  | b :: bs => b :: filter (fun c => negb (Qeq_bool b c)) (unique bs)
  end.

(** [bins.searchsorted(x, side="left")] on increasing [bins]: the number of
    edges strictly below [x]. *)
Fixpoint searchsorted_left (bins : list Q) (x : Q) : nat :=
  match bins with
  | [] => 0
  | b :: bs => if Qlt_bool b x then S (searchsorted_left bs x) else 0
  end.

Inductive dup_policy : Type := DupRaise | DupDrop.

(** The bin number of one value: 0 stands for "no bin" (the [na_mask] of
    [_bins_to_cuts]). *)
Definition bin_id (bins : list Q) (include_lowest : bool) (x : num) : nat :=
  match x with
  | None => 0
  | Some v =>
      let i := searchsorted_left bins v in
      let i := if include_lowest && Qeq_bool v (hd 0 bins) then 1%nat else i in
      if Nat.eqb i (length bins) then 0%nat else i
  end.

Definition take_label {L : Type} (labels : list L) (id : nat) : option L :=
  match id with
  | O => None
  | S k => nth_error labels k
  end.

(** [pandas.core.reshape.tile._bins_to_cuts] with [right=True] and a list
    of labels.  Duplicate edges are rejected or dropped (unless there are
    exactly two edges); after that the labels must be one fewer than the
    edges.  The check that the labels are pairwise distinct is left out: the
    cleaners pass literal lists of distinct labels. *)
Definition bins_to_cuts {L : Type} (x : list num) (bins : list Q)
    (labels : list L) (include_lowest : bool) (duplicates : dup_policy)
  : result (list (option L)) :=
  let unique_bins := unique bins in
  bins' <-
    (if Nat.ltb (length unique_bins) (length bins) && negb (Nat.eqb (length bins) 2)
     then match duplicates with
          | DupRaise => Raise (ValueError "Bin edges must be unique")
          | DupDrop => Ok unique_bins
          end
     else Ok bins) ;;
  let ids := map (bin_id bins' include_lowest) x in
  if negb (Nat.eqb (S (length labels)) (length bins'))
  then Raise (ValueError "Bin labels must be one fewer than the number of bin edges")
  else Ok (map (take_label labels) ids).

Fixpoint increasing (bins : list Q) : bool :=
  match bins with
  | a :: ((b :: _) as bs) => Qle_bool a b && increasing bs
  | _ => true
  end.

(** [pandas.cut(x, bins, labels)] with a list of edges: [right=True],
    [include_lowest=False], [duplicates="raise"]. *)
Definition cut {L : Type} (x : list num) (bins : list Q) (labels : list L)
  : result (list (option L)) :=
  if negb (increasing bins)
  then Raise (ValueError "bins must increase monotonically.")
  else bins_to_cuts x bins labels false DupRaise.

(** [numpy.linspace(0, 1, q + 1)]. *)
Definition linspace01 (q : nat) : list Q :=
  map (fun k => inject_Z (Z.of_nat k) / inject_Z (Z.of_nat q)) (seq 0 (S q)).

(** [pandas.qcut(x, q, labels, duplicates)]: the edges are the quantiles of
    the present values, and the lowest edge is included.  Without a present
    value every edge is NaN, the edges collapse to one and the label check
    raises for any non-empty label list. *)
Definition qcut_edges (x : list num) (q : nat) : option (list Q) :=
  match dropna x with
  | [] => None
  | v :: vs => Some (map (quantile_sorted (QSort.sort (v :: vs))) (linspace01 q))
  end.

Definition qcut {L : Type} (x : list num) (q : nat) (labels : list L)
    (duplicates : dup_policy) : result (list (option L)) :=
  match qcut_edges x q with
  | None => Raise (ValueError "Bin labels must be one fewer than the number of bin edges")
  | Some bins => bins_to_cuts x bins labels true duplicates
  end.

(** [Series.rank(method="first")]: one plus the number of smaller values,
    ties ranked in order of appearance. *)
Definition count_lt (xs : list num) (v : Q) : nat :=
  length (filter (fun y => Qlt_bool y v) (dropna xs)).

Definition count_eq (xs : list num) (v : Q) : nat :=
  length (filter (fun y => Qeq_bool y v) (dropna xs)).

Fixpoint rank_first_from (seen rest all : list num) : list num :=
  match rest with
  | [] => []
  | None :: rest' => None :: rank_first_from (seen ++ [None]) rest' all
  | Some v :: rest' =>
      Some (inject_Z (Z.of_nat (1 + count_lt all v + count_eq seen v)))
      :: rank_first_from (seen ++ [Some v]) rest' all
  end.

Definition rank_first (xs : list num) : list num := rank_first_from [] xs xs.

(** [Series.astype(int)] on the labels of a cut: NaN cannot be converted. *)
Definition astype_int (xs : list (option Z)) : result (list Z) :=
  mapM (fun x => match x with
                 | Some z => Ok z
                 | None => Raise (ValueError "Cannot convert float NaN to integer")
                 end) xs.

(** [str.strip()] and [str.title()] of Python on ASCII text. *)
Definition is_space (c : ascii) : bool :=
  let n := nat_of_ascii c in
  ((9 <=? n) && (n <=? 13) || (28 <=? n) && (n <=? 32))%nat.

Definition is_upper (c : ascii) : bool :=
  let n := nat_of_ascii c in ((65 <=? n) && (n <=? 90))%nat.

Definition is_lower (c : ascii) : bool :=
  let n := nat_of_ascii c in ((97 <=? n) && (n <=? 122))%nat.

Definition to_upper (c : ascii) : ascii :=
  if is_lower c then ascii_of_nat (nat_of_ascii c - 32) else c.

Definition to_lower (c : ascii) : ascii :=
  if is_upper c then ascii_of_nat (nat_of_ascii c + 32) else c.

Fixpoint lstrip (s : string) : string :=
  match s with
  | String c s' => if is_space c then lstrip s' else s
  | EmptyString => EmptyString
  end.

Fixpoint rstrip (s : string) : string :=
  match s with
  | EmptyString => EmptyString
  | String c s' =>
      match rstrip s' with
      | EmptyString => if is_space c then EmptyString else String c EmptyString
      | t => String c t
      end
  end.

Definition str_strip (s : string) : string := rstrip (lstrip s).

Fixpoint title_from (previous_is_cased : bool) (s : string) : string :=
  match s with
  | EmptyString => EmptyString
  | String c s' =>
      String (if previous_is_cased then to_lower c else to_upper c)
             (title_from (is_upper c || is_lower c) s')
  end.

Definition str_title (s : string) : string := title_from false s.

End Pandas.

(** ** Sales fact *)

Module Sales.

(** One row of the [sales_fact] query, column by column. *)
Record row : Type := mkRow {
  order_id : num;
  order_date : datecell;
  ship_date : datecell;
  ship_mode : text;
  region : text;
  order_year : num;
  order_month : num;
  month_name : text;
  order_quarter : num;
  shipping_days : num;
  customer_id : num;
  customer_name : text;
  gender : text;
  age : num;
  city : text;
  state : text;
  segment : text;
  product_id : num;
  product_name : text;
  category : text;
  sub_category : text;
  brand : text;
  cost_price : num;
  quantity : num;
  selling_price : num;
  discount : num;
  net_price : num;
  revenue : num;
  total_cost : num;
  profit : num;
  profit_margin_pct : num;
  order_status : text
}.

(** The cleaned row: the columns above and the four derived ones. *)
Record cleaned : Type := mkCleaned {
  base : row;
  discount_pct : num;
  age_group : text;
  is_returned : Z;
  month_year : string
}.

(** Full-row equality, NaN equal to NaN, as [DataFrame.duplicated] has it. *)
Definition row_eqb (a b : row) : bool :=
  num_eqb (order_id a) (order_id b) &&
  date_eqb (order_date a) (order_date b) &&
  date_eqb (ship_date a) (ship_date b) &&
  text_eqb (ship_mode a) (ship_mode b) &&
  text_eqb (region a) (region b) &&
  num_eqb (order_year a) (order_year b) &&
  num_eqb (order_month a) (order_month b) &&
  text_eqb (month_name a) (month_name b) &&
  num_eqb (order_quarter a) (order_quarter b) &&
  num_eqb (shipping_days a) (shipping_days b) &&
  num_eqb (customer_id a) (customer_id b) &&
  text_eqb (customer_name a) (customer_name b) &&
  text_eqb (gender a) (gender b) &&
  num_eqb (age a) (age b) &&
  text_eqb (city a) (city b) &&
  text_eqb (state a) (state b) &&
  text_eqb (segment a) (segment b) &&
  num_eqb (product_id a) (product_id b) &&
  text_eqb (product_name a) (product_name b) &&
  text_eqb (category a) (category b) &&
  text_eqb (sub_category a) (sub_category b) &&
  text_eqb (brand a) (brand b) &&
  num_eqb (cost_price a) (cost_price b) &&
  num_eqb (quantity a) (quantity b) &&
  num_eqb (selling_price a) (selling_price b) &&
  num_eqb (discount a) (discount b) &&
  num_eqb (net_price a) (net_price b) &&
  num_eqb (revenue a) (revenue b) &&
  num_eqb (total_cost a) (total_cost b) &&
  num_eqb (profit a) (profit b) &&
  num_eqb (profit_margin_pct a) (profit_margin_pct b) &&
  text_eqb (order_status a) (order_status b).

(** [df.drop_duplicates()]: the first of every group of equal rows stays. *)
Fixpoint drop_duplicates_from (seen df : list row) : list row :=
  match df with
  | [] => []
  | r :: df' =>
      if existsb (row_eqb r) seen
      then drop_duplicates_from seen df'
      else r :: drop_duplicates_from (r :: seen) df'
  end.

Definition drop_duplicates (df : list row) : list row := drop_duplicates_from [] df.

(** Column assignments [df[c] = ...], one per column the cleaner writes. *)
Definition set_discount (v : num) (r : row) : row :=
  mkRow (order_id r) (order_date r) (ship_date r) (ship_mode r) (region r)
    (order_year r) (order_month r) (month_name r) (order_quarter r)
    (shipping_days r) (customer_id r) (customer_name r) (gender r) (age r)
    (city r) (state r) (segment r) (product_id r) (product_name r)
    (category r) (sub_category r) (brand r) (cost_price r) (quantity r)
    (selling_price r) v (net_price r) (revenue r) (total_cost r) (profit r)
    (profit_margin_pct r) (order_status r).

Definition set_shipping_days (v : num) (r : row) : row :=
  mkRow (order_id r) (order_date r) (ship_date r) (ship_mode r) (region r)
    (order_year r) (order_month r) (month_name r) (order_quarter r)
    v (customer_id r) (customer_name r) (gender r) (age r)
    (city r) (state r) (segment r) (product_id r) (product_name r)
    (category r) (sub_category r) (brand r) (cost_price r) (quantity r)
    (selling_price r) (discount r) (net_price r) (revenue r) (total_cost r)
    (profit r) (profit_margin_pct r) (order_status r).

Definition set_profit_margin_pct (v : num) (r : row) : row :=
  mkRow (order_id r) (order_date r) (ship_date r) (ship_mode r) (region r)
    (order_year r) (order_month r) (month_name r) (order_quarter r)
    (shipping_days r) (customer_id r) (customer_name r) (gender r) (age r)
    (city r) (state r) (segment r) (product_id r) (product_name r)
    (category r) (sub_category r) (brand r) (cost_price r) (quantity r)
    (selling_price r) (discount r) (net_price r) (revenue r) (total_cost r)
    (profit r) v (order_status r).

(** [df[col].str.strip().str.title()]; a missing text stays missing. *)
Definition standardize (t : text) : text :=
  option_map (fun s => Pandas.str_title (Pandas.str_strip s)) t.

(** The loop of step 3.6 over gender, segment, region, ship_mode, category,
    sub_category and order_status. *)
Definition standardize_text (r : row) : row :=
  mkRow (order_id r) (order_date r) (ship_date r) (standardize (ship_mode r))
    (standardize (region r))
    (order_year r) (order_month r) (month_name r) (order_quarter r)
    (shipping_days r) (customer_id r) (customer_name r) (standardize (gender r))
    (age r) (city r) (state r) (standardize (segment r)) (product_id r)
    (product_name r) (standardize (category r)) (standardize (sub_category r))
    (brand r) (cost_price r) (quantity r)
    (selling_price r) (discount r) (net_price r) (revenue r) (total_cost r)
    (profit r) (profit_margin_pct r) (standardize (order_status r)).

(** The row masks of step 3.3; a comparison with NaN is false. *)
Definition revenue_ok (r : row) : bool :=
  match revenue r with
  | Some v => Qle_bool 0 v
  | None => false
  end.

Definition quantity_ok (r : row) : bool :=
  match quantity r with
  | Some v => Qlt_bool 0 v
  | None => false
  end.

Definition age_bins : list Q := [0; 25; 35; 45; 60; 100].
Definition age_labels : list string :=
  ["18-25"; "26-35"; "36-45"; "46-60"; "60+"]%string.

(** [(df['order_status'] == 'Returned').astype(int)]. *)
Definition returned_flag (t : text) : Z :=
  match t with
  | Some s => if String.eqb s "Returned" then 1%Z else 0%Z
  | None => 0%Z
  end.

(** [dt.to_period('M').astype(str)]. *)
Definition two_digits (z : Z) : string :=
  let s := NilZero.string_of_uint (N.to_uint (Z.to_N z)) in
  if (z <? 10)%Z then String "0" s else s.

Definition period_month (d : datecell) : string :=
  match d with
  | Some d =>
      (NilZero.string_of_uint (N.to_uint (Z.to_N (year d))) ++ "-" ++ two_digits (month d))%string
  | None => "NaT"%string
  end.

Fixpoint add_derived (df : list row) (groups : list text) : list cleaned :=
  match df, groups with
  | r :: df', g :: groups' =>
      mkCleaned r
        (Pandas.round1 (option_map (fun d => d * 100) (discount r)))
        g
        (returned_flag (order_status r))
        (period_month (order_date r))
      :: add_derived df' groups'
  | _, _ => []
  end.

(** [clean_sales_fact(df)].  Step 3.1 ([pd.to_datetime]) is the identity
    here: the date columns already hold calendar dates, as the database
    connector delivers them. *)
Definition clean_sales_fact (df : list row) : result (list cleaned) :=
  (* 3.2 drop full duplicates *)
  let df := drop_duplicates df in
  (* 3.3 remove negative revenue and non-positive quantity *)
  let df := filter revenue_ok df in
  let df := filter quantity_ok df in
  (* 3.4 handle nulls *)
  let df := map (fun r => set_discount (Pandas.fillna (Some 0) (discount r)) r) df in
  let med := Pandas.median (map shipping_days df) in
  let df := map (fun r => set_shipping_days (Pandas.fillna med (shipping_days r)) r) df in
  (* 3.5 cap profit_margin_pct at the 99th percentile *)
  let cap := Pandas.quantile (map profit_margin_pct df) (99 # 100) in
  let df := map (fun r => set_profit_margin_pct
                            (Pandas.clip_upper cap (profit_margin_pct r)) r) df in
  (* 3.6 standardize text columns *)
  let df := map standardize_text df in
  (* 3.7 derived columns *)
  groups <- Pandas.cut (map age df) age_bins age_labels ;;
  Ok (add_derived df groups).

(** Row-wise reading of the cleaner, used to state its properties: the rows
    that survive steps 3.2 and 3.3, the two statistics taken over them, and
    what steps 3.4 to 3.7 do to one surviving row. *)
Definition filtered (df : list row) : list row :=
  filter quantity_ok (filter revenue_ok (drop_duplicates df)).

Definition shipping_fill (df : list row) : num :=
  Pandas.median (map shipping_days (filtered df)).

Definition margin_cap (df : list row) : num :=
  Pandas.quantile (map profit_margin_pct (filtered df)) (99 # 100).

Definition age_group_of (a : num) : text :=
  Pandas.take_label age_labels (Pandas.bin_id age_bins false a).

Definition clean_row (med cap : num) (r : row) : cleaned :=
  let r := set_discount (Pandas.fillna (Some 0) (discount r)) r in
  let r := set_shipping_days (Pandas.fillna med (shipping_days r)) r in
  let r := set_profit_margin_pct (Pandas.clip_upper cap (profit_margin_pct r)) r in
  let r := standardize_text r in
  mkCleaned r
    (Pandas.round1 (option_map (fun d => d * 100) (discount r)))
    (age_group_of (age r))
    (returned_flag (order_status r))
    (period_month (order_date r)).

(** The bounds of step 3.3 as a proposition. *)
Definition in_range (r : row) : Prop :=
  exists v q, revenue r = Some v /\ 0 <= v /\ quantity r = Some q /\ 0 < q.

End Sales.

(** ** Customer lifetime value *)

Module CLV.

Record row : Type := mkRow {
  customer_id : num;
  customer_name : text;
  segment : text;
  city : text;
  state : text;
  gender : text;
  age : num;
  total_orders : num;
  total_revenue : num;
  avg_order_value : num;
  first_order_date : datecell;
  last_order_date : datecell;
  customer_lifespan_days : num;
  clv_estimate : num
}.

(** The ordered categories of [clv_tier]. *)
Inductive tier : Type := Bronze | Silver | Gold | Platinum.

Definition tier_rank (t : tier) : nat :=
  match t with
  | Bronze => 0
  | Silver => 1
  | Gold => 2
  | Platinum => 3
  end.

Definition tier_labels : list tier := [Bronze; Silver; Gold; Platinum].

Record cleaned : Type := mkCleaned {
  base : row;
  clv_tier : option tier
}.

Definition set_clv_estimate (v : num) (r : row) : row :=
  mkRow (customer_id r) (customer_name r) (segment r) (city r) (state r)
    (gender r) (age r) (total_orders r) (total_revenue r) (avg_order_value r)
    (first_order_date r) (last_order_date r) (customer_lifespan_days r) v.

Definition set_customer_lifespan_days (v : num) (r : row) : row :=
  mkRow (customer_id r) (customer_name r) (segment r) (city r) (state r)
    (gender r) (age r) (total_orders r) (total_revenue r) (avg_order_value r)
    (first_order_date r) (last_order_date r) v (clv_estimate r).

Fixpoint add_tier (df : list row) (tiers : list (option tier)) : list cleaned :=
  match df, tiers with
  | r :: df', t :: tiers' => mkCleaned r t :: add_tier df' tiers'
  | _, _ => []
  end.

(** [clean_customer_clv(df)]; the two [pd.to_datetime] calls are the
    identity on calendar dates. *)
Definition clean_customer_clv (df : list row) : result (list cleaned) :=
  let df := map (fun r => set_clv_estimate (Pandas.fillna (Some 0) (clv_estimate r)) r) df in
  let df := map (fun r => set_customer_lifespan_days
                            (Pandas.fillna (Some 0) (customer_lifespan_days r)) r) df in
  tiers <- Pandas.qcut (map clv_estimate df) 4 tier_labels Pandas.DupDrop ;;
  Ok (add_tier df tiers).

(** The table after the two fills, on which the tiers are cut. *)
Definition filled (df : list row) : list row :=
  map (fun r => set_customer_lifespan_days
                  (Pandas.fillna (Some 0) (customer_lifespan_days r)) r)
    (map (fun r => set_clv_estimate (Pandas.fillna (Some 0) (clv_estimate r)) r) df).

End CLV.

(** ** RFM segmentation *)

Module RFM.

Record row : Type := mkRow {
  customer_id : num;
  customer_name : text;
  segment : text;
  recency_days : num;
  frequency : num;
  monetary : num
}.

Record scored : Type := mkScored {
  base : row;
  R_score : Z;
  F_score : Z;
  M_score : Z;
  RFM_score : Z;
  rfm_segment : string
}.

(** The nested [rfm_label(score)]. *)
Definition rfm_label (score : Z) : string :=
  if (10 <=? score)%Z then "Champions"
  else if (8 <=? score)%Z then "Loyal Customers"
  else if (6 <=? score)%Z then "Potential Loyalists"
  else if (4 <=? score)%Z then "At Risk"
  else "Lost Customers".

Fixpoint add_scores (df : list row) (rs fs ms : list Z) : list scored :=
  match df, rs, fs, ms with
  | x :: df', r :: rs', f :: fs', m :: ms' =>
      let score := (r + f + m)%Z in
      mkScored x r f m score (rfm_label score) :: add_scores df' rs' fs' ms'
  | _, _, _, _ => []
  end.

(** [clean_rfm(df)]. *)
Definition clean_rfm (df : list row) : result (list scored) :=
  rc <- Pandas.qcut (map recency_days df) 4 [4; 3; 2; 1]%Z Pandas.DupDrop ;;
  rs <- Pandas.astype_int rc ;;
  fc <- Pandas.qcut (Pandas.rank_first (map frequency df)) 4 [1; 2; 3; 4]%Z Pandas.DupRaise ;;
  fs <- Pandas.astype_int fc ;;
  mc <- Pandas.qcut (map monetary df) 4 [1; 2; 3; 4]%Z Pandas.DupDrop ;;
  ms <- Pandas.astype_int mc ;;
  Ok (add_scores df rs fs ms).

End RFM.

(** ** Sample tables *)

Module Samples.

Definition customer (id : Z) (recency freq money : Q) : RFM.row :=
  RFM.mkRow (Some (inject_Z id)) (Some "c"%string) (Some "Consumer"%string)
    (Some recency) (Some freq) (Some money).

Definition rfm4 : list RFM.row :=
  [ customer 1 10 1 400; customer 2 20 1 300;
    customer 3 30 1 200; customer 4 40 1 100 ].

Definition rfm_flat : list RFM.row :=
  [ customer 1 7 1 50; customer 2 7 2 50; customer 3 7 3 50; customer 4 7 4 50 ].

Definition rfm_flat_money : list RFM.row :=
  [ customer 1 10 1 50; customer 2 20 2 50; customer 3 30 3 50; customer 4 40 4 50 ].

Definition client (id : Z) (clv : num) : CLV.row :=
  CLV.mkRow (Some (inject_Z id)) (Some "c"%string) (Some "Consumer"%string)
    (Some "x"%string) (Some "y"%string) (Some "F"%string) (Some 30)
    (Some 2) (Some 100) (Some 50) (Some (mkDate 2024 1 5)) (Some (mkDate 2024 3 9))
    (Some 64) clv.

Definition clv4 : list CLV.row :=
  [ client 1 (Some 400); client 2 (Some 300); client 3 None; client 4 (Some 100) ].

Definition clv_flat : list CLV.row :=
  [ client 1 (Some 50); client 2 (Some 50); client 3 (Some 50); client 4 (Some 50) ].

Definition order (id : Z) (qty rev : num) (disc ship margin : num)
    (years : num) (status : text) : Sales.row :=
  Sales.mkRow (Some (inject_Z id)) (Some (mkDate 2024 3 9)) (Some (mkDate 2024 3 12))
    (Some " second class"%string) (Some "WEST"%string) (Some 2024) (Some 3)
    (Some "March"%string) (Some 1) ship (Some 7) (Some "Ann Lee"%string)
    (Some "female"%string) years (Some "Reno"%string) (Some "Nevada"%string)
    (Some "consumer "%string) (Some 11) (Some "Desk"%string)
    (Some "furniture"%string) (Some "office desks"%string) (Some "Acme"%string)
    (Some 40) qty (Some 60) disc (Some 54) rev (Some 80) (Some 28) margin status.

Definition sales5 : list Sales.row :=
  [ order 1 (Some 2) (Some 108) (Some (1 # 10)) (Some 3) (Some 35) (Some 0)
      (Some "RETURNED"%string);
    order 2 (Some 1) (Some 60) None None (Some 50) (Some 25)
      (Some " returned "%string);
    order 2 (Some 1) (Some 60) None None (Some 50) (Some 25)
      (Some " returned "%string);
    order 3 (Some (-1)) (Some 60) None (Some 9) (Some 50) (Some 41)
      (Some "Completed"%string);
    order 4 (Some 3) (Some 162) (Some 0) (Some 5) (Some 900) (Some 101)
      (Some "completed"%string) ].


Definition run {A : Type} (m : result (list A)) : list A :=
  match m with
  | Ok out => out
  | Raise _ => []
  end.

(** The cleaned sample tables, evaluated once. *)
Definition sales5_clean : list Sales.cleaned :=
  Eval vm_compute in run (Sales.clean_sales_fact sales5).

Definition clv4_clean : list CLV.cleaned :=
  Eval vm_compute in run (CLV.clean_customer_clv clv4).

Definition rfm4_scored : list RFM.scored :=
  Eval vm_compute in run (RFM.clean_rfm rfm4).

End Samples.

(** ** Product performance *)

Module Product.

(** One row of the [product_performance] query; the table is exported as it
    is extracted. *)
Record row : Type := mkRow {
  product_id : num;
  product_name : text;
  category : text;
  sub_category : text;
  brand : text;
  total_units_sold : num;
  total_revenue : num;
  total_profit : num;
  profit_margin_pct : num
}.

End Product.

(** ** The cleaning stage *)

Module Pipeline.


Record cleaned : Type := mkCleaned {
  sales_fact_clean : list Sales.cleaned;
  customer_clv_clean : list CLV.cleaned;
  rfm_segmentation_clean : list RFM.scored;
  product_performance_clean : list Product.row
}.


End Pipeline.

(** ** Export paths *)

Module Exporter.

Fixpoint ends_with_slash (s : string) : bool :=
  match s with
  | EmptyString => false
  | String c EmptyString => Ascii.eqb c "/"
  | String _ s' => ends_with_slash s'
  end.

Definition starts_with_slash (s : string) : bool :=
  match s with
  | String c _ => Ascii.eqb c "/"
  | EmptyString => false
  end.

(** [os.path.join(a, b)] of [posixpath]. *)
Definition path_join (a b : string) : string :=
  if starts_with_slash b then b
  else if String.eqb a "" || ends_with_slash a then (a ++ b)%string
  else (a ++ "/" ++ b)%string.

(** The [file_map] of [export_to_csv], in insertion order; [timestamp] is
    [datetime.now().strftime("%Y%m%d")]. *)
Definition file_map (timestamp : string) : list (string * string) :=
  [ ("sales_fact", "sales_fact_" ++ timestamp ++ ".csv");
    ("customer_clv", "customer_clv_" ++ timestamp ++ ".csv");
    ("rfm_segmentation", "rfm_segmentation_" ++ timestamp ++ ".csv");
    ("product_performance", "product_performance_" ++ timestamp ++ ".csv") ]%string.

(** The writes of [export_to_csv], in order: which table goes to which path.
    What [to_csv] puts in the file is not modelled. *)
Definition export_to_csv (output_dir timestamp : string) : list (string * string) :=
  map (fun kf => (fst kf, path_join output_dir (snd kf))) (file_map timestamp).

End Exporter.

(** ** Summary report *)

Module Summary.

(** The only exception of the report: [', '.join] over a missing category. *)
Inductive outcome (A : Type) : Type :=
| Done (a : A)
| TypeError (msg : string).
Arguments Done {A} a.
Arguments TypeError {A} msg.

(** [Series.sum()]: missing values skipped, 0 without a value. *)
Definition sum (xs : list num) : Q := fold_right Qplus 0 (Pandas.dropna xs).

(** [Series.mean()]: NaN without a value. *)
Definition mean (xs : list num) : num :=
  match Pandas.dropna xs with
  | [] => None
  | v :: vs => Some (sum xs / inject_Z (Z.of_nat (length (v :: vs))))
  end.

Definition Qmax (a b : Q) : Q := if Qle_bool a b then b else a.

(** [Series.max()]. *)
Definition max (xs : list num) : num :=
  match Pandas.dropna xs with
  | [] => None
  | v :: vs => Some (fold_left Qmax vs v)
  end.

(** [Series.nunique()]: distinct present values. *)
Definition nunique (xs : list num) : nat :=
  length (Pandas.unique (Pandas.dropna xs)).

(** [Series.unique()] of a text column: first occurrences, a missing value
    among them. *)
Fixpoint unique_text (xs : list text) : list text :=
  match xs with
  | [] => []
  | x :: xs' => x :: filter (fun y => negb (text_eqb x y)) (unique_text xs')
  end.

(** [', '.join(values)]: every item has to be a string. *)
Fixpoint all_strings (values : list text) : option (list string) :=
  match values with
  | [] => Some []
  | Some s :: rest => option_map (cons s) (all_strings rest)
  | None :: _ => None
  end.

Definition join (values : list text) : outcome string :=
  match all_strings values with
  | Some items => Done (String.concat ", " items)
  | None => TypeError "sequence item: expected str instance"
  end.

Definition date_leb (a b : date) : bool :=
  (year a <? year b)%Z
  || (year a =? year b)%Z && ((month a <? month b)%Z
                              || (month a =? month b)%Z && (day a <=? day b)%Z).

Fixpoint present_dates (xs : list datecell) : list date :=
  match xs with
  | [] => []
  | Some d :: xs' => d :: present_dates xs'
  | None :: xs' => present_dates xs'
  end.

(** [Series.min()] and [Series.max()] of a date column: NaT without a date. *)
Definition date_min (xs : list datecell) : datecell :=
  match present_dates xs with
  | [] => None
  | d :: ds => Some (fold_left (fun m x => if date_leb m x then m else x) ds d)
  end.

Definition date_max (xs : list datecell) : datecell :=
  match present_dates xs with
  | [] => None
  | d :: ds => Some (fold_left (fun m x => if date_leb m x then x else m) ds d)
  end.

(** The figures of the report, before they are formatted. *)
Record figures : Type := mkFigures {
  date_from : datecell;
  date_to : datecell;
  total_orders : nat;
  total_revenue : Q;
  total_profit : Q;
  avg_profit_margin : num;
  total_customers : nat;
  top_customer_clv : num;
  return_rate : num;
  categories : string
}.

(** [print_summary(dataframes)]: the figures it prints, in the order it
    computes them.  The formatting of the numbers is not modelled. *)
Definition print_summary (sf : list Sales.cleaned) (clv : list CLV.cleaned)
  : outcome figures :=
  let base := map Sales.base sf in
  let date_from := date_min (map Sales.order_date base) in
  let date_to := date_max (map Sales.order_date base) in
  let total_orders := nunique (map Sales.order_id base) in
  let total_revenue := sum (map Sales.revenue base) in
  let total_profit := sum (map Sales.profit base) in
  let avg_profit_margin := mean (map Sales.profit_margin_pct base) in
  let total_customers := nunique (map Sales.customer_id base) in
  let top_customer_clv := max (map (fun c => CLV.clv_estimate (CLV.base c)) clv) in
  let return_rate :=
    option_map (fun m => m * 100)
      (mean (map (fun c => Some (inject_Z (Sales.is_returned c))) sf)) in
  match join (unique_text (map Sales.category base)) with
  | TypeError m => TypeError m
  | Done categories =>
      Done (mkFigures date_from date_to total_orders total_revenue total_profit
              avg_profit_margin total_customers top_customer_clv return_rate
              categories)
  end.

End Summary.

(** ** Text without surrounding whitespace *)

Module Text.




End Text.

(** * Properties *)

(** ** Booleans on rationals *)

Lemma Qlt_bool_iff (a b : Q) : Qlt_bool a b = true <-> a < b.
Proof.
  unfold Qlt_bool. rewrite negb_true_iff. split; intro H.
  - apply Qnot_le_lt. intro Hle. apply Qle_bool_iff in Hle. congruence.
  - destruct (Qle_bool b a) eqn:E; [|reflexivity].
    apply Qle_bool_iff in E. exfalso. apply (Qlt_not_le _ _ H E).
Qed.

Lemma Qlt_bool_false_iff (a b : Q) : Qlt_bool a b = false <-> b <= a.
Proof.
  unfold Qlt_bool. rewrite negb_false_iff. apply Qle_bool_iff.
Qed.

Lemma num_eqb_refl (a : num) : num_eqb a a = true.
Proof. destruct a; simpl; [apply Qeq_bool_refl | reflexivity]. Qed.

Lemma text_eqb_refl (a : text) : text_eqb a a = true.
Proof. destruct a; simpl; [apply String.eqb_refl | reflexivity]. Qed.

Lemma date_eqb_refl (a : datecell) : date_eqb a a = true.
Proof. destruct a; simpl; [rewrite !Z.eqb_refl|]; reflexivity. Qed.

(** ** The result monad *)

Lemma bind_ok {A B : Type} (m : result A) (k : A -> result B) (b : B) :
  bind m k = Ok b -> exists a, m = Ok a /\ k a = Ok b.
Proof. destruct m as [a | e]; simpl; intro H; [eauto | discriminate]. Qed.

Lemma astype_int_ok (xs : list (option Z)) (zs : list Z) :
  Pandas.astype_int xs = Ok zs -> xs = map Some zs.
Proof.
  revert zs. induction xs as [| x xs IH]; intros zs H.
  - simpl in H. injection H as <-. reflexivity.
  - unfold Pandas.astype_int in H. simpl in H.
    destruct x as [z |]; simpl in H; [| discriminate].
    apply bind_ok in H. destruct H as [bs [Hbs Hret]].
    injection Hret as <-. simpl. f_equal. apply IH. exact Hbs.
Qed.

(** ** Cutting into bins *)

Lemma cut_age (xs : list num) :
  Pandas.cut xs Sales.age_bins Sales.age_labels =
  Ok (map Sales.age_group_of xs).
Proof.
  unfold Pandas.cut, Pandas.bins_to_cuts.
  change (Pandas.increasing Sales.age_bins) with true.
  change (Pandas.unique Sales.age_bins) with Sales.age_bins.
  cbn [negb length Nat.ltb Nat.leb Nat.eqb andb bind Sales.age_bins Sales.age_labels].
  rewrite map_map. reflexivity.
Qed.

Lemma searchsorted_left_mono (bins : list Q) (v w : Q) :
  v <= w -> (Pandas.searchsorted_left bins v <= Pandas.searchsorted_left bins w)%nat.
Proof.
  intro Hvw. induction bins as [| b bs IH]; simpl; [lia|].
  destruct (Qlt_bool b v) eqn:Ev.
  - apply Qlt_bool_iff in Ev.
    assert (Ew : Qlt_bool b w = true) by (apply Qlt_bool_iff; lra).
    rewrite Ew. lia.
  - lia.
Qed.

Lemma searchsorted_left_below_last (bins : list Q) (v : Q) :
  bins <> [] -> v <= last bins 0 ->
  (Pandas.searchsorted_left bins v < length bins)%nat.
Proof.
  induction bins as [| b bs IH]; intros Hne Hlast; [congruence|].
  simpl. destruct (Qlt_bool b v) eqn:Ev; [| lia].
  apply Qlt_bool_iff in Ev.
  destruct bs as [| c bs'].
  - simpl in Hlast. lra.
  - apply -> Nat.succ_lt_mono. apply IH; [discriminate | exact Hlast].
Qed.

Lemma searchsorted_left_comp (bins : list Q) (v w : Q) :
  v == w -> Pandas.searchsorted_left bins v = Pandas.searchsorted_left bins w.
Proof.
  intro H. apply Nat.le_antisymm; apply searchsorted_left_mono; lra.
Qed.

(** ** Sales fact: the cleaner, row by row *)

Lemma add_derived_groups (df : list Sales.row) :
  Sales.add_derived df (map Sales.age_group_of (map Sales.age df)) =
  map (fun r => Sales.mkCleaned r
                  (Pandas.round1 (option_map (fun d => d * 100) (Sales.discount r)))
                  (Sales.age_group_of (Sales.age r))
                  (Sales.returned_flag (Sales.order_status r))
                  (Sales.period_month (Sales.order_date r))) df.
Proof.
  induction df as [| r df IH]; simpl; [reflexivity|]. rewrite IH. reflexivity.
Qed.

(** The column-wise cleaner never raises and is the row-wise [clean_row]
    mapped over the surviving rows. *)
Lemma clean_sales_fact_rows (df : list Sales.row) :
  Sales.clean_sales_fact df =
  Ok (map (Sales.clean_row (Sales.shipping_fill df) (Sales.margin_cap df))
          (Sales.filtered df)).
Proof.
  unfold Sales.clean_sales_fact, Sales.shipping_fill, Sales.margin_cap.
  fold (Sales.filtered df). set (F := Sales.filtered df).
  rewrite cut_age. cbn [bind]. rewrite add_derived_groups.
  assert (Hship : map Sales.shipping_days
            (map (fun r => Sales.set_discount
                             (Pandas.fillna (Some 0) (Sales.discount r)) r) F)
          = map Sales.shipping_days F).
  { rewrite map_map. apply map_ext. intro r. reflexivity. }
  rewrite Hship.
  set (med := Pandas.median (map Sales.shipping_days F)).
  assert (Hmargin : map Sales.profit_margin_pct
            (map (fun r => Sales.set_shipping_days
                             (Pandas.fillna med (Sales.shipping_days r)) r)
               (map (fun r => Sales.set_discount
                                (Pandas.fillna (Some 0) (Sales.discount r)) r) F))
          = map Sales.profit_margin_pct F).
  { rewrite !map_map. apply map_ext. intro r. reflexivity. }
  rewrite Hmargin.
  rewrite !map_map. f_equal.
Qed.

Lemma clean_sales_fact_total (df : list Sales.row) :
  exists out, Sales.clean_sales_fact df = Ok out.
Proof. eexists. apply clean_sales_fact_rows. Qed.

Lemma clean_sales_fact_in (df : list Sales.row) (out : list Sales.cleaned)
    (c : Sales.cleaned) :
  Sales.clean_sales_fact df = Ok out -> In c out ->
  exists r, In r (Sales.filtered df) /\
            c = Sales.clean_row (Sales.shipping_fill df) (Sales.margin_cap df) r.
Proof.
  rewrite clean_sales_fact_rows. intros H Hin. injection H as <-.
  apply in_map_iff in Hin. destruct Hin as [r [Hc Hr]]. exists r. auto.
Qed.

(** *** Deduplication *)

Lemma row_eqb_refl (r : Sales.row) : Sales.row_eqb r r = true.
Proof.
  unfold Sales.row_eqb.
  rewrite !num_eqb_refl, !text_eqb_refl, !date_eqb_refl. reflexivity.
Qed.

Lemma row_eqb_revenue (a b : Sales.row) :
  Sales.row_eqb a b = true ->
  num_eqb (Sales.revenue a) (Sales.revenue b) = true /\
  num_eqb (Sales.quantity a) (Sales.quantity b) = true.
Proof.
  unfold Sales.row_eqb. intro H.
  repeat (apply andb_true_iff in H; destruct H as [H ?]).
  split; assumption.
Qed.

Lemma drop_duplicates_from_subset (seen df : list Sales.row) (r : Sales.row) :
  In r (Sales.drop_duplicates_from seen df) -> In r df.
Proof.
  revert seen. induction df as [| x df IH]; intros seen H; simpl in *; [exact H|].
  destruct (existsb (Sales.row_eqb x) seen).
  - right. eapply IH, H.
  - destruct H as [H | H]; [left; exact H | right; eapply IH, H].
Qed.

Lemma drop_duplicates_from_keeps (seen df : list Sales.row) (r : Sales.row) :
  In r df ->
  (exists s, In s seen /\ Sales.row_eqb r s = true) \/
  (exists r0, In r0 (Sales.drop_duplicates_from seen df) /\ Sales.row_eqb r r0 = true).
Proof.
  revert seen. induction df as [| x df IH]; intros seen H; [contradiction|].
  simpl. destruct H as [-> | H].
  - destruct (existsb (Sales.row_eqb r) seen) eqn:E.
    + left. apply existsb_exists in E. exact E.
    + right. exists r. split; [left; reflexivity | apply row_eqb_refl].
  - destruct (existsb (Sales.row_eqb x) seen) eqn:E.
    + destruct (IH seen H) as [Hs | [r0 [Hin Heq]]]; [left; exact Hs | right; eauto].
    + destruct (IH (x :: seen) H) as [[s [[<- | Hs] Heq]] | [r0 [Hin Heq]]].
      * right. exists x. split; [left; reflexivity | exact Heq].
      * left. eauto.
      * right. exists r0. split; [right; exact Hin | exact Heq].
Qed.

Lemma drop_duplicates_keeps (df : list Sales.row) (r : Sales.row) :
  In r df ->
  exists r0, In r0 (Sales.drop_duplicates df) /\ Sales.row_eqb r r0 = true.
Proof.
  intro H. destruct (drop_duplicates_from_keeps [] df r H) as [[s [[] _]] | Hk].
  exact Hk.
Qed.

Lemma drop_duplicates_from_distinct (seen df : list Sales.row) :
  NoDup (Sales.drop_duplicates_from seen df) /\
  forall r, In r (Sales.drop_duplicates_from seen df) ->
            existsb (Sales.row_eqb r) seen = false.
Proof.
  revert seen. induction df as [| x df IH]; intro seen; simpl.
  - split; [constructor | contradiction].
  - destruct (existsb (Sales.row_eqb x) seen) eqn:E; [apply IH|].
    destruct (IH (x :: seen)) as [Hnd Hseen]. split.
    + constructor; [| exact Hnd]. intro Hin. apply Hseen in Hin.
      cbn [existsb] in Hin. rewrite row_eqb_refl in Hin. discriminate.
    + intros r [<- | Hin]; [exact E|].
      apply Hseen in Hin. cbn [existsb] in Hin.
      apply orb_false_iff in Hin. apply Hin.
Qed.

(** *** The row masks *)

Lemma in_range_iff (r : Sales.row) :
  Sales.in_range r <-> Sales.revenue_ok r = true /\ Sales.quantity_ok r = true.
Proof.
  unfold Sales.in_range, Sales.revenue_ok, Sales.quantity_ok. split.
  - intros [v [q [-> [Hv [-> Hq]]]]]. split.
    + apply Qle_bool_iff, Hv.
    + apply Qlt_bool_iff, Hq.
  - intros [Hr Hq].
    destruct (Sales.revenue r) as [v |]; [| discriminate].
    destruct (Sales.quantity r) as [q |]; [| discriminate].
    exists v, q. repeat split.
    + apply Qle_bool_iff, Hr.
    + apply Qlt_bool_iff, Hq.
Qed.

Lemma filtered_iff (df : list Sales.row) (r : Sales.row) :
  In r (Sales.filtered df) <-> In r (Sales.drop_duplicates df) /\ Sales.in_range r.
Proof.
  unfold Sales.filtered. rewrite !filter_In, in_range_iff. tauto.
Qed.

Lemma in_range_eqb (a b : Sales.row) :
  Sales.row_eqb a b = true -> Sales.in_range a -> Sales.in_range b.
Proof.
  intros Heq [v [q [Hv [Hv0 [Hq Hq0]]]]].
  destruct (row_eqb_revenue a b Heq) as [Hr Hn].
  rewrite Hv in Hr. rewrite Hq in Hn. unfold Sales.in_range.
  destruct (Sales.revenue b) as [v' |]; [| discriminate].
  destruct (Sales.quantity b) as [q' |]; [| discriminate].
  simpl in Hr, Hn. apply Qeq_bool_eq in Hr. apply Qeq_bool_eq in Hn.
  exists v', q'. repeat split; lra.
Qed.

(** *** Order statistics exist when a value is present *)

Lemma dropna_in (xs : list num) (v : Q) : In (Some v) xs -> In v (Pandas.dropna xs).
Proof.
  induction xs as [| x xs IH]; intro H; [contradiction|].
  destruct H as [-> | H]; simpl.
  - left. reflexivity.
  - destruct x; [right|]; apply IH, H.
Qed.

Lemma in_dropna (xs : list num) (v : Q) : In v (Pandas.dropna xs) -> In (Some v) xs.
Proof.
  induction xs as [| x xs IH]; intro H; [contradiction|].
  destruct x as [w |]; simpl in H.
  - destruct H as [-> | H]; [left; reflexivity | right; apply IH, H].
  - right. apply IH, H.
Qed.

Lemma quantile_present (xs : list num) (q v : Q) :
  In (Some v) xs -> exists c, Pandas.quantile xs q = Some c.
Proof.
  intro H. apply dropna_in in H. unfold Pandas.quantile.
  destruct (Pandas.dropna xs); [contradiction | eauto].
Qed.

Lemma median_present (xs : list num) (v : Q) :
  In (Some v) xs -> exists m, Pandas.median xs = Some m.
Proof.
  intro H. apply dropna_in in H. unfold Pandas.median.
  destruct (Pandas.dropna xs) as [| w ws]; [contradiction|].
  cbv zeta. destruct (Nat.even _); eauto.
Qed.

Lemma clip_upper_le (cap x : num) (v : Q) :
  Pandas.clip_upper cap x = Some v ->
  (exists v0, x = Some v0 /\ v <= v0) /\ (forall c, cap = Some c -> v <= c).
Proof.
  unfold Pandas.clip_upper. destruct x as [v0 |]; [| discriminate].
  destruct cap as [c |].
  - destruct (Qlt_bool c v0) eqn:E; intro H; injection H as <-.
    + apply Qlt_bool_iff in E. split.
      * exists v0. split; [reflexivity | lra].
      * intros c' Hc. injection Hc as <-. lra.
    + apply Qlt_bool_false_iff in E. split.
      * exists v0. split; [reflexivity | lra].
      * intros c' Hc. injection Hc as <-. exact E.
  - intro H. injection H as <-. split.
    + exists v0. split; [reflexivity | lra].
    + intros c Hc. discriminate.
Qed.

(** *** The age groups *)

Lemma age_group_of_spec (a : Q) :
  (a <= 0 -> Sales.age_group_of (Some a) = None) /\
  (0 < a <= 25 -> Sales.age_group_of (Some a) = Some "18-25"%string) /\
  (25 < a <= 35 -> Sales.age_group_of (Some a) = Some "26-35"%string) /\
  (35 < a <= 45 -> Sales.age_group_of (Some a) = Some "36-45"%string) /\
  (45 < a <= 60 -> Sales.age_group_of (Some a) = Some "46-60"%string) /\
  (60 < a <= 100 -> Sales.age_group_of (Some a) = Some "60+"%string) /\
  (100 < a -> Sales.age_group_of (Some a) = None).
Proof.
  unfold Sales.age_group_of, Sales.age_bins, Pandas.bin_id.
  cbn [Pandas.searchsorted_left andb length].
  destruct (Qlt_bool 0 a) eqn:E0;
    [apply Qlt_bool_iff in E0 | apply Qlt_bool_false_iff in E0];
    [destruct (Qlt_bool 25 a) eqn:E1;
       [apply Qlt_bool_iff in E1 | apply Qlt_bool_false_iff in E1];
       [destruct (Qlt_bool 35 a) eqn:E2;
          [apply Qlt_bool_iff in E2 | apply Qlt_bool_false_iff in E2];
          [destruct (Qlt_bool 45 a) eqn:E3;
             [apply Qlt_bool_iff in E3 | apply Qlt_bool_false_iff in E3];
             [destruct (Qlt_bool 60 a) eqn:E4;
                [apply Qlt_bool_iff in E4 | apply Qlt_bool_false_iff in E4];
                [destruct (Qlt_bool 100 a) eqn:E5;
                   [apply Qlt_bool_iff in E5 | apply Qlt_bool_false_iff in E5] | ] | ] | ] | ] | ];
    cbn; repeat split; intros; try reflexivity; exfalso; lra.
Qed.

(** ** Sales fact: the claims *)

Lemma clean_row_revenue (med cap : num) (r : Sales.row) :
  Sales.revenue (Sales.base (Sales.clean_row med cap r)) = Sales.revenue r /\
  Sales.quantity (Sales.base (Sales.clean_row med cap r)) = Sales.quantity r.
Proof. split; reflexivity. Qed.

(** C2: every row of the cleaned sales fact has revenue >= 0 and
    quantity > 0; it is the image of an input row with these very values
    (rows are dropped, never corrected), so an input row out of range has no
    image; and every input row in range has a full-row-equal representative
    whose image is in the output. *)
Theorem C2_sales_rows_in_range (df : list Sales.row) (out : list Sales.cleaned) :
  Sales.clean_sales_fact df = Ok out ->
  (forall c, In c out ->
     Sales.in_range (Sales.base c) /\
     exists r, In r df /\ Sales.in_range r /\
       c = Sales.clean_row (Sales.shipping_fill df) (Sales.margin_cap df) r /\
       Sales.revenue (Sales.base c) = Sales.revenue r /\
       Sales.quantity (Sales.base c) = Sales.quantity r) /\
  (forall r, In r df -> ~ Sales.in_range r ->
     ~ In (Sales.clean_row (Sales.shipping_fill df) (Sales.margin_cap df) r) out) /\
  (forall r, In r df -> Sales.in_range r ->
     exists r0, In r0 df /\ Sales.row_eqb r r0 = true /\
       In (Sales.clean_row (Sales.shipping_fill df) (Sales.margin_cap df) r0) out).
Proof.
  intro Hrun.
  assert (Hrows : forall c, In c out ->
     Sales.in_range (Sales.base c) /\
     exists r, In r df /\ Sales.in_range r /\
       c = Sales.clean_row (Sales.shipping_fill df) (Sales.margin_cap df) r /\
       Sales.revenue (Sales.base c) = Sales.revenue r /\
       Sales.quantity (Sales.base c) = Sales.quantity r).
  { intros c Hc.
    destruct (clean_sales_fact_in df out c Hrun Hc) as [r [Hr ->]].
    apply filtered_iff in Hr. destruct Hr as [Hdd Hrange].
    apply drop_duplicates_from_subset in Hdd.
    split.
    - destruct Hrange as [v [q H]]. exists v, q. exact H.
    - exists r. repeat split; assumption. }
  split; [exact Hrows|]. split.
  - intros r Hr Hbad Hin.
    destruct (Hrows _ Hin) as [[v [q [Hv [Hv0 [Hq Hq0]]]]] _].
    apply Hbad. exists v, q. repeat split; assumption.
  - intros r Hr Hrange.
    destruct (drop_duplicates_keeps df r Hr) as [r0 [Hr0 Heq]].
    exists r0. split; [eapply drop_duplicates_from_subset, Hr0|].
    split; [exact Heq|].
    rewrite clean_sales_fact_rows in Hrun. injection Hrun as <-.
    apply in_map. apply filtered_iff. split; [exact Hr0|].
    eapply in_range_eqb; eassumption.
Qed.

Lemma C2_sales_rows_in_range_witness :
  Sales.clean_sales_fact Samples.sales5 = Ok Samples.sales5_clean /\
  forall c, In c Samples.sales5_clean -> Sales.in_range (Sales.base c).
Proof.
  assert (Hrun : Sales.clean_sales_fact Samples.sales5 = Ok Samples.sales5_clean)
    by (vm_compute; reflexivity).
  split; [exact Hrun|].
  intros c Hc.
  exact (proj1 (proj1 (C2_sales_rows_in_range Samples.sales5 _ Hrun) c Hc)).
Defined.

(** C8: in the cleaned sales fact a null discount has become 0 and a null
    shipping_days has become the median of shipping_days over the rows left
    by deduplication and the revenue/quantity masks (the column as it is
    before the fill); present values are kept.  When no surviving row has a
    shipping_days the median is itself null and the cell stays null. *)
Theorem C8_null_fills (df : list Sales.row) (out : list Sales.cleaned) :
  Sales.clean_sales_fact df = Ok out ->
  forall c, In c out ->
    exists r,
      In r (filter Sales.quantity_ok (filter Sales.revenue_ok (Sales.drop_duplicates df))) /\
      c = Sales.clean_row (Sales.shipping_fill df) (Sales.margin_cap df) r /\
      Sales.discount (Sales.base c) =
        match Sales.discount r with
        | Some d => Some d
        | None => Some 0
        end /\
      Sales.shipping_days (Sales.base c) =
        match Sales.shipping_days r with
        | Some d => Some d
        | None =>
            Pandas.median
              (map Sales.shipping_days
                 (filter Sales.quantity_ok
                    (filter Sales.revenue_ok (Sales.drop_duplicates df))))
        end.
Proof.
  intros Hrun c Hc.
  destruct (clean_sales_fact_in df out c Hrun Hc) as [r [Hr ->]].
  exists r. split; [exact Hr|]. split; [reflexivity|]. split.
  - cbn. destruct (Sales.discount r); reflexivity.
  - cbn. destruct (Sales.shipping_days r); reflexivity.
Qed.

Lemma C8_null_fills_witness :
  Sales.clean_sales_fact Samples.sales5 = Ok Samples.sales5_clean /\
  forall c, In c Samples.sales5_clean ->
    exists r,
      In r (filter Sales.quantity_ok
              (filter Sales.revenue_ok (Sales.drop_duplicates Samples.sales5))) /\
      c = Sales.clean_row (Sales.shipping_fill Samples.sales5)
            (Sales.margin_cap Samples.sales5) r /\
      Sales.discount (Sales.base c) =
        match Sales.discount r with
        | Some d => Some d
        | None => Some 0
        end /\
      Sales.shipping_days (Sales.base c) =
        match Sales.shipping_days r with
        | Some d => Some d
        | None =>
            Pandas.median
              (map Sales.shipping_days
                 (filter Sales.quantity_ok
                    (filter Sales.revenue_ok (Sales.drop_duplicates Samples.sales5))))
        end.
Proof.
  assert (Hrun : Sales.clean_sales_fact Samples.sales5 = Ok Samples.sales5_clean)
    by (vm_compute; reflexivity).
  split; [exact Hrun|].
  exact (C8_null_fills Samples.sales5 _ Hrun).
Defined.

(** The fill leaves no null shipping_days as soon as one surviving row has a
    value. *)
Lemma shipping_days_filled (df : list Sales.row) (out : list Sales.cleaned)
    (r0 : Sales.row) (d0 : Q) :
  Sales.clean_sales_fact df = Ok out ->
  In r0 (Sales.filtered df) -> Sales.shipping_days r0 = Some d0 ->
  forall c, In c out -> Sales.shipping_days (Sales.base c) <> None.
Proof.
  intros Hrun Hr0 Hd0 c Hc.
  destruct (C8_null_fills df out Hrun c Hc) as [r [_ [_ [_ Hs]]]].
  rewrite Hs. destruct (Sales.shipping_days r); [discriminate|].
  destruct (median_present (map Sales.shipping_days (Sales.filtered df)) d0) as [m Hm].
  - rewrite <- Hd0. apply in_map, Hr0.
  - unfold Sales.filtered in Hm. rewrite Hm. discriminate.
Qed.

(** C5: in the cleaned sales fact a present profit_margin_pct is at most
    the 99th percentile of the column over the surviving rows (taken before
    the clip) and at most the value the row had; a null stays null. *)
Theorem C5_margin_capped (df : list Sales.row) (out : list Sales.cleaned) :
  Sales.clean_sales_fact df = Ok out ->
  forall c, In c out ->
    exists r,
      In r (Sales.filtered df) /\
      c = Sales.clean_row (Sales.shipping_fill df) (Sales.margin_cap df) r /\
      match Sales.profit_margin_pct (Sales.base c) with
      | Some v =>
          (exists cap,
             Pandas.quantile (map Sales.profit_margin_pct (Sales.filtered df)) (99 # 100)
             = Some cap /\ v <= cap) /\
          (exists v0, Sales.profit_margin_pct r = Some v0 /\ v <= v0)
      | None => Sales.profit_margin_pct r = None
      end.
Proof.
  intros Hrun c Hc.
  destruct (clean_sales_fact_in df out c Hrun Hc) as [r [Hr ->]].
  exists r. split; [exact Hr|]. split; [reflexivity|].
  change (Sales.profit_margin_pct
            (Sales.base (Sales.clean_row (Sales.shipping_fill df) (Sales.margin_cap df) r)))
    with (Pandas.clip_upper (Sales.margin_cap df) (Sales.profit_margin_pct r)).
  destruct (Pandas.clip_upper (Sales.margin_cap df) (Sales.profit_margin_pct r))
    as [v |] eqn:E.
  - destruct (clip_upper_le _ _ _ E) as [[v0 [Hv0 Hle]] Hcap].
    split; [| exists v0; auto].
    destruct (quantile_present (map Sales.profit_margin_pct (Sales.filtered df))
                (99 # 100) v0) as [cap Hq].
    + rewrite <- Hv0. apply in_map, Hr.
    + exists cap. split; [exact Hq|]. apply Hcap. exact Hq.
  - unfold Pandas.clip_upper in E.
    destruct (Sales.profit_margin_pct r) as [v0 |]; [| reflexivity].
    destruct (Sales.margin_cap df) as [cap |]; [| discriminate].
    destruct (Qlt_bool cap v0); discriminate.
Qed.

Lemma C5_margin_capped_witness :
  Sales.clean_sales_fact Samples.sales5 = Ok Samples.sales5_clean /\
  Sales.margin_cap Samples.sales5 = Some (88300 # 100) /\
  forall c, In c Samples.sales5_clean ->
    forall v, Sales.profit_margin_pct (Sales.base c) = Some v -> v <= 883.
Proof.
  assert (Hrun : Sales.clean_sales_fact Samples.sales5 = Ok Samples.sales5_clean)
    by (vm_compute; reflexivity).
  assert (Hcap : Sales.margin_cap Samples.sales5 = Some (88300 # 100))
    by (vm_compute; reflexivity).
  split; [exact Hrun|]. split; [exact Hcap|].
  intros c Hc v Hv.
  destruct (C5_margin_capped Samples.sales5 _ Hrun c Hc) as [r [_ [_ H]]].
  rewrite Hv in H. destruct H as [[cap [Hq Hle]] _].
  unfold Sales.margin_cap in Hcap. rewrite Hcap in Hq. injection Hq as <-.
  apply (Qle_trans _ _ _ Hle). discriminate.
Defined.

(** C9: in the cleaned sales fact is_returned is 0 or 1, and it is 1
    exactly when the raw order_status, stripped of surrounding whitespace and
    title-cased, is "Returned" (the value the cleaned order_status column
    then holds); "RETURNED" and " returned " are two such raw values. *)
Theorem C9_is_returned (df : list Sales.row) (out : list Sales.cleaned) :
  Sales.clean_sales_fact df = Ok out ->
  (forall c, In c out ->
     (Sales.is_returned c = 0 \/ Sales.is_returned c = 1)%Z /\
     (Sales.is_returned c = 1%Z <->
      Sales.order_status (Sales.base c) = Some "Returned"%string) /\
     exists r,
       In r df /\
       Sales.order_status (Sales.base c) =
         option_map (fun s => Pandas.str_title (Pandas.str_strip s))
                    (Sales.order_status r) /\
       (Sales.is_returned c = 1%Z <->
        exists s, Sales.order_status r = Some s /\
                  Pandas.str_title (Pandas.str_strip s) = "Returned"%string)) /\
  Pandas.str_title (Pandas.str_strip "RETURNED") = "Returned"%string /\
  Pandas.str_title (Pandas.str_strip " returned ") = "Returned"%string.
Proof.
  intro Hrun. split; [| split; reflexivity].
  intros c Hc.
  destruct (clean_sales_fact_in df out c Hrun Hc) as [r [Hr ->]].
  apply filtered_iff in Hr. destruct Hr as [Hr _].
  apply drop_duplicates_from_subset in Hr.
  change (Sales.is_returned
            (Sales.clean_row (Sales.shipping_fill df) (Sales.margin_cap df) r))
    with (Sales.returned_flag (Sales.standardize (Sales.order_status r))).
  change (Sales.order_status
            (Sales.base (Sales.clean_row (Sales.shipping_fill df) (Sales.margin_cap df) r)))
    with (Sales.standardize (Sales.order_status r)).
  unfold Sales.standardize, Sales.returned_flag.
  destruct (Sales.order_status r) as [s |] eqn:Es; cbn [option_map].
  - set (t := Pandas.str_title (Pandas.str_strip s)).
    destruct (String.eqb t "Returned") eqn:E.
    + apply String.eqb_eq in E. split; [right; reflexivity|]. split.
      * split; intro; [rewrite E|]; reflexivity.
      * exists r. split; [exact Hr|]. rewrite Es. split; [reflexivity|].
        split; [intros _; exists s; auto | reflexivity].
    + apply String.eqb_neq in E. split; [left; reflexivity|]. split.
      * split; [discriminate | intro H; injection H as H; contradiction].
      * exists r. split; [exact Hr|]. rewrite Es. split; [reflexivity|].
        split; [discriminate|].
        intros [s' [Hs' Ht]]. injection Hs' as <-. contradiction.
  - split; [left; reflexivity|]. split.
    + split; discriminate.
    + exists r. split; [exact Hr|]. rewrite Es. split; [reflexivity|].
      split; [discriminate | intros [s' [Hs' _]]; discriminate].
Qed.

Lemma C9_is_returned_witness :
  Sales.clean_sales_fact Samples.sales5 = Ok Samples.sales5_clean /\
  forall c, In c Samples.sales5_clean ->
    (Sales.is_returned c = 1%Z <->
     Sales.order_status (Sales.base c) = Some "Returned"%string).
Proof.
  assert (Hrun : Sales.clean_sales_fact Samples.sales5 = Ok Samples.sales5_clean)
    by (vm_compute; reflexivity).
  split; [exact Hrun|].
  intros c Hc.
  exact (proj1 (proj2 (proj1 (C9_is_returned Samples.sales5 _ Hrun) c Hc))).
Defined.

(** C4, as the code has it: age_group is assigned by the bins (0,25],
    (25,35], (35,45], (45,60], (60,100], open on the left, labelled "18-25",
    "26-35", "36-45", "46-60", "60+"; an age of 0 or less, an age above 100
    and a missing age yield no group. *)
Theorem C4_age_group_bins (df : list Sales.row) (out : list Sales.cleaned) :
  Sales.clean_sales_fact df = Ok out ->
  forall c, In c out ->
    match Sales.age (Sales.base c) with
    | None => Sales.age_group c = None
    | Some a =>
        (a <= 0 -> Sales.age_group c = None) /\
        (0 < a <= 25 -> Sales.age_group c = Some "18-25"%string) /\
        (25 < a <= 35 -> Sales.age_group c = Some "26-35"%string) /\
        (35 < a <= 45 -> Sales.age_group c = Some "36-45"%string) /\
        (45 < a <= 60 -> Sales.age_group c = Some "46-60"%string) /\
        (60 < a <= 100 -> Sales.age_group c = Some "60+"%string) /\
        (100 < a -> Sales.age_group c = None)
    end.
Proof.
  intros Hrun c Hc.
  destruct (clean_sales_fact_in df out c Hrun Hc) as [r [_ ->]].
  change (Sales.age (Sales.base
            (Sales.clean_row (Sales.shipping_fill df) (Sales.margin_cap df) r)))
    with (Sales.age r).
  change (Sales.age_group
            (Sales.clean_row (Sales.shipping_fill df) (Sales.margin_cap df) r))
    with (Sales.age_group_of (Sales.age r)).
  destruct (Sales.age r) as [a |]; [apply age_group_of_spec | reflexivity].
Qed.

Lemma C4_age_group_bins_witness :
  Sales.clean_sales_fact Samples.sales5 = Ok Samples.sales5_clean /\
  forall c, In c Samples.sales5_clean ->
    forall a, Sales.age (Sales.base c) = Some a -> 0 < a <= 25 ->
      Sales.age_group c = Some "18-25"%string.
Proof.
  assert (Hrun : Sales.clean_sales_fact Samples.sales5 = Ok Samples.sales5_clean)
    by (vm_compute; reflexivity).
  split; [exact Hrun|].
  intros c Hc a Ha Hrange.
  pose proof (C4_age_group_bins Samples.sales5 _ Hrun c Hc) as H.
  rewrite Ha in H. apply H. exact Hrange.
Defined.

(** C4 as the claim states it fails: a surviving row of age 0 gets no group,
    not "18-25". *)
Lemma C4_age_zero_counterexample :
  ~ (forall (df : list Sales.row) (out : list Sales.cleaned) (c : Sales.cleaned) (a : Q),
       Sales.clean_sales_fact df = Ok out -> In c out ->
       Sales.age (Sales.base c) = Some a -> 0 <= a <= 25 ->
       Sales.age_group c = Some "18-25"%string).
Proof.
  intro H.
  assert (Hrun : Sales.clean_sales_fact Samples.sales5 = Ok Samples.sales5_clean)
    by (vm_compute; reflexivity).
  specialize (H Samples.sales5 Samples.sales5_clean
                (hd (Sales.clean_row None None (Samples.order 0 None None None None None None None))
                    Samples.sales5_clean)
                0 Hrun).
  assert (Hnone : Sales.age_group
            (hd (Sales.clean_row None None (Samples.order 0 None None None None None None None))
                Samples.sales5_clean) = None) by reflexivity.
  rewrite Hnone in H.
  assert (Habs : @None string = Some "18-25"%string).
  { apply H.
    - left. reflexivity.
    - reflexivity.
    - split; discriminate. }
  discriminate.
Qed.

(** ** Quantile edges *)

Lemma Qleb_trans : Transitive (fun x y : Q => is_true (Qle_bool x y)).
Proof.
  intros x y z Hxy Hyz. unfold is_true in *.
  rewrite Qle_bool_iff in *. lra.
Qed.

Lemma sort_sorted (l : list Q) :
  StronglySorted (fun x y : Q => is_true (Qle_bool x y)) (Pandas.QSort.sort l).
Proof. apply Pandas.QSort.StronglySorted_sort, Qleb_trans. Qed.

Lemma sort_length (l : list Q) : length (Pandas.QSort.sort l) = length l.
Proof. symmetry. apply Permutation_length, Pandas.QSort.Permuted_sort. Qed.

Lemma sort_in (l : list Q) (v : Q) : In v l -> In v (Pandas.QSort.sort l).
Proof. apply Permutation_in, Pandas.QSort.Permuted_sort. Qed.

Lemma sorted_nth_le (a : list Q) (i j : nat) :
  StronglySorted (fun x y : Q => is_true (Qle_bool x y)) a ->
  (i <= j)%nat -> (j < length a)%nat -> nth i a 0 <= nth j a 0.
Proof.
  intro Hs. revert i j. induction Hs as [| x l Hs IH Hall]; intros i j Hij Hj.
  - simpl in Hj. lia.
  - destruct j as [| j].
    + assert (i = 0%nat) by lia. subst i. simpl. lra.
    + simpl in Hj. destruct i as [| i].
      * simpl. rewrite Forall_forall in Hall.
        apply Qle_bool_iff. apply Hall. apply nth_In. lia.
      * simpl. apply IH; lia.
Qed.

Lemma sorted_bounds (a : list Q) (v : Q) :
  StronglySorted (fun x y : Q => is_true (Qle_bool x y)) a -> In v a ->
  nth 0 a 0 <= v <= nth (length a - 1) a 0.
Proof.
  intros Hs Hin. destruct (In_nth a v 0 Hin) as [k [Hk <-]].
  split; apply sorted_nth_le; try assumption; lia.
Qed.

(** The position [(n-1)*q] of a quantile and its two neighbours. *)
Lemma quantile_position (n : Z) (q : Q) :
  (1 <= n)%Z -> 0 <= q <= 1 ->
  let pos := inject_Z (n - 1) * q in
  (0 <= Qfloor pos <= n - 1)%Z /\
  0 <= pos - inject_Z (Qfloor pos) /\ pos - inject_Z (Qfloor pos) < 1.
Proof.
  intros Hn [Hq0 Hq1] pos.
  assert (Hn1 : 0 <= inject_Z (n - 1)).
  { change (inject_Z 0 <= inject_Z (n - 1)). rewrite <- Zle_Qle. lia. }
  assert (Hpos0 : 0 <= pos) by (unfold pos; nra).
  assert (Hpos1 : pos <= inject_Z (n - 1)) by (unfold pos; nra).
  split; [split|split].
  - rewrite <- (Qfloor_Z 0). apply Qfloor_resp_le. exact Hpos0.
  - rewrite <- (Qfloor_Z (n - 1)). apply Qfloor_resp_le. exact Hpos1.
  - pose proof (Qfloor_le pos). lra.
  - pose proof (Qlt_floor pos) as H. rewrite inject_Z_plus in H.
    change (inject_Z 1) with 1 in H. lra.
Qed.

(** A quantile of a sorted column lies between its two neighbouring order
    statistics. *)
Lemma quantile_sorted_between (a : list Q) (q : Q) :
  StronglySorted (fun x y : Q => is_true (Qle_bool x y)) a ->
  a <> [] -> 0 <= q <= 1 ->
  let n := Z.of_nat (length a) in
  let lo := Qfloor (inject_Z (n - 1) * q) in
  let hi := Z.min (lo + 1) (n - 1) in
  nth (Z.to_nat lo) a 0 <= Pandas.quantile_sorted a q /\
  Pandas.quantile_sorted a q <= nth (Z.to_nat hi) a 0.
Proof.
  intros Hs Hne Hq n lo hi.
  assert (Hn : (1 <= n)%Z).
  { unfold n. destruct a; [congruence | simpl length; lia]. }
  destruct (quantile_position n q Hn Hq) as [[Hlo0 Hlo1] [Hf0 Hf1]].
  fold lo in Hlo0, Hlo1, Hf0, Hf1.
  assert (Hmono : nth (Z.to_nat lo) a 0 <= nth (Z.to_nat hi) a 0).
  { apply sorted_nth_le; [exact Hs | unfold hi; lia | unfold hi, n in *; lia]. }
  unfold Pandas.quantile_sorted. cbv zeta. fold n. fold lo. fold hi.
  set (alo := nth (Z.to_nat lo) a 0) in *.
  set (ahi := nth (Z.to_nat hi) a 0) in *.
  set (frac := inject_Z (n - 1) * q - inject_Z lo) in *.
  split; nra.
Qed.

Lemma quantile_sorted_mono (a : list Q) (q1 q2 : Q) :
  StronglySorted (fun x y : Q => is_true (Qle_bool x y)) a ->
  a <> [] -> 0 <= q1 -> q1 <= q2 -> q2 <= 1 ->
  Pandas.quantile_sorted a q1 <= Pandas.quantile_sorted a q2.
Proof.
  intros Hs Hne H0 H12 H1.
  set (n := Z.of_nat (length a)).
  assert (Hn : (1 <= n)%Z).
  { unfold n. destruct a; [congruence | simpl length; lia]. }
  assert (Hn1 : 0 <= inject_Z (n - 1)).
  { change (inject_Z 0 <= inject_Z (n - 1)). rewrite <- Zle_Qle. lia. }
  assert (Hq1 : 0 <= q1 <= 1) by lra.
  assert (Hq2 : 0 <= q2 <= 1) by lra.
  destruct (quantile_position n q1 Hn Hq1) as [[Ha0 Ha1] [Hfa0 Hfa1]].
  destruct (quantile_position n q2 Hn Hq2) as [[Hb0 Hb1] [Hfb0 Hfb1]].
  assert (Hpos : inject_Z (n - 1) * q1 <= inject_Z (n - 1) * q2) by nra.
  pose proof (Qfloor_resp_le _ _ Hpos) as Hfl.
  destruct (Z.eq_dec (Qfloor (inject_Z (n - 1) * q1)) (Qfloor (inject_Z (n - 1) * q2)))
    as [Heq | Hneq].
  - unfold Pandas.quantile_sorted. cbv zeta. fold n. rewrite <- Heq.
    set (lo := Qfloor (inject_Z (n - 1) * q1)) in *.
    assert (Hmono : nth (Z.to_nat lo) a 0 <= nth (Z.to_nat (Z.min (lo + 1) (n - 1))) a 0).
    { apply sorted_nth_le; [exact Hs | lia | unfold n in *; lia]. }
    set (alo := nth (Z.to_nat lo) a 0) in *.
    set (ahi := nth (Z.to_nat (Z.min (lo + 1) (n - 1))) a 0) in *.
    nra.
  - destruct (quantile_sorted_between a q1 Hs Hne Hq1) as [_ Hup].
    destruct (quantile_sorted_between a q2 Hs Hne Hq2) as [Hlow _].
    cbv zeta in Hup, Hlow. fold n in Hup, Hlow.
    eapply Qle_trans; [exact Hup|]. eapply Qle_trans; [| exact Hlow].
    apply sorted_nth_le; [exact Hs | lia | unfold n in *; lia].
Qed.

Lemma quantile_sorted_zero (a : list Q) (q : Q) :
  q == 0 -> Pandas.quantile_sorted a q == nth 0 a 0.
Proof.
  intro Hq. unfold Pandas.quantile_sorted. cbv zeta.
  set (n := Z.of_nat (length a)).
  assert (Hpos : inject_Z (n - 1) * q == 0) by (rewrite Hq; ring).
  rewrite (Qfloor_comp _ _ Hpos). change (Qfloor 0) with 0%Z.
  change (Z.to_nat 0) with 0%nat. rewrite Hpos.
  change (inject_Z 0) with 0. ring.
Qed.

Lemma quantile_sorted_one (a : list Q) (q : Q) :
  a <> [] -> q == 1 ->
  Pandas.quantile_sorted a q == nth (length a - 1) a 0.
Proof.
  intros Hne Hq. unfold Pandas.quantile_sorted. cbv zeta.
  set (n := Z.of_nat (length a)).
  assert (Hn : (1 <= n)%Z).
  { unfold n. destruct a; [congruence | simpl length; lia]. }
  assert (Hpos : inject_Z (n - 1) * q == inject_Z (n - 1)) by (rewrite Hq; ring).
  rewrite (Qfloor_comp _ _ Hpos), Qfloor_Z.
  replace (Z.min (n - 1 + 1) (n - 1)) with (n - 1)%Z by lia.
  replace (Z.to_nat (n - 1)) with (length a - 1)%nat by (unfold n; lia).
  ring.
Qed.

(** The five edges of a quartile cut. *)
Lemma qcut_edges_shape (x : list num) (bins : list Q) :
  Pandas.qcut_edges x 4 = Some bins ->
  let a := Pandas.QSort.sort (Pandas.dropna x) in
  Pandas.dropna x <> [] /\
  bins = [ Pandas.quantile_sorted a (0 # 4); Pandas.quantile_sorted a (1 # 4);
           Pandas.quantile_sorted a (2 # 4); Pandas.quantile_sorted a (3 # 4);
           Pandas.quantile_sorted a (4 # 4) ].
Proof.
  unfold Pandas.qcut_edges. destruct (Pandas.dropna x) as [| v vs]; [discriminate|].
  intro H. injection H as <-. split; [discriminate | reflexivity].
Qed.

Lemma sort_nonempty (l : list Q) : l <> [] -> Pandas.QSort.sort l <> [].
Proof.
  intros Hne Hs. apply Hne. apply length_zero_iff_nil.
  rewrite <- sort_length, Hs. reflexivity.
Qed.

(** Every present value lies between the lowest and the highest edge. *)
Lemma qcut_edges_cover (x : list num) (bins : list Q) (v : Q) :
  Pandas.qcut_edges x 4 = Some bins -> In (Some v) x ->
  hd 0 bins <= v <= last bins 0.
Proof.
  intros Hb Hin. destruct (qcut_edges_shape x bins Hb) as [Hne ->].
  cbn [hd last].
  set (a := Pandas.QSort.sort (Pandas.dropna x)).
  assert (Hs : StronglySorted (fun x y : Q => is_true (Qle_bool x y)) a)
    by apply sort_sorted.
  assert (Ha : In v a) by (apply sort_in, dropna_in, Hin).
  destruct (sorted_bounds a v Hs Ha) as [Hlo Hhi].
  rewrite (quantile_sorted_zero a (0 # 4)) by reflexivity.
  rewrite (quantile_sorted_one a (4 # 4)) by (try apply sort_nonempty; easy).
  split; assumption.
Qed.

(** The edges come out in increasing order, which is what
    [searchsorted_left] relies on. *)
Lemma qcut_edges_increasing (x : list num) (bins : list Q) :
  Pandas.qcut_edges x 4 = Some bins -> Pandas.increasing bins = true.
Proof.
  intro Hb. destruct (qcut_edges_shape x bins Hb) as [Hne ->].
  set (a := Pandas.QSort.sort (Pandas.dropna x)).
  assert (Hs : StronglySorted (fun x y : Q => is_true (Qle_bool x y)) a)
    by apply sort_sorted.
  assert (Ha : a <> []) by (apply sort_nonempty, Hne).
  cbn [Pandas.increasing].
  rewrite !andb_true_iff, !Qle_bool_iff.
  repeat split; apply quantile_sorted_mono; try assumption; discriminate.
Qed.

(** ** Bin numbers of a quartile cut *)

Lemma unique_length_le (bins : list Q) : (length (Pandas.unique bins) <= length bins)%nat.
Proof.
  induction bins as [| b bs IH]; simpl; [lia|].
  pose proof (filter_length_le (fun c => negb (Qeq_bool b c)) (Pandas.unique bs)). lia.
Qed.

Lemma qcut_edges_length (x : list num) (bins : list Q) :
  Pandas.qcut_edges x 4 = Some bins -> length bins = 5%nat.
Proof. intro H. destruct (qcut_edges_shape x bins H) as [_ ->]. reflexivity. Qed.

(** A quartile cut with four labels succeeds only when the five edges are
    pairwise distinct; the column is then the label of each bin number. *)
Lemma qcut4_ok {L : Type} (x : list num) (labels : list L)
    (pol : Pandas.dup_policy) (col : list (option L)) :
  length labels = 4%nat ->
  Pandas.qcut x 4 labels pol = Ok col ->
  exists bins,
    Pandas.qcut_edges x 4 = Some bins /\
    length (Pandas.unique bins) = 5%nat /\
    col = map (fun v => Pandas.take_label labels (Pandas.bin_id bins true v)) x.
Proof.
  intros Hl H. unfold Pandas.qcut in H.
  destruct (Pandas.qcut_edges x 4) as [bins |] eqn:Hb; [| discriminate].
  exists bins. split; [reflexivity|].
  pose proof (qcut_edges_length x bins Hb) as Hlen.
  pose proof (unique_length_le bins) as Hle.
  unfold Pandas.bins_to_cuts in H. rewrite Hlen, Hl in H.
  change (Nat.eqb 5 2) with false in H. cbn [negb] in H.
  rewrite andb_true_r in H.
  destruct (Nat.ltb (length (Pandas.unique bins)) 5) eqn:E.
  - apply Nat.ltb_lt in E. exfalso.
    destruct pol; cbn [bind] in H; [discriminate|].
    destruct (Nat.eqb 5 (length (Pandas.unique bins))) eqn:E5.
    + apply Nat.eqb_eq in E5. lia.
    + cbn [negb] in H. discriminate.
  - apply Nat.ltb_ge in E. split; [lia|].
    cbn [bind] in H. rewrite Hlen in H.
    change (Nat.eqb 5 5) with true in H. cbn [negb] in H.
    injection H as <-. apply map_map.
Qed.

(** The converse: degenerate edges make the cut raise, whatever the
    duplicate policy. *)
Lemma qcut4_degenerate {L : Type} (x : list num) (labels : list L)
    (pol : Pandas.dup_policy) :
  length labels = 4%nat ->
  (forall bins, Pandas.qcut_edges x 4 = Some bins ->
                (length (Pandas.unique bins) < 5)%nat) ->
  exists e, Pandas.qcut x 4 labels pol = Raise e.
Proof.
  intros Hl Hdeg.
  destruct (Pandas.qcut x 4 labels pol) as [col | e] eqn:E; [| eauto].
  destruct (qcut4_ok x labels pol col Hl E) as [bins [Hb [Hu _]]].
  specialize (Hdeg bins Hb). lia.
Qed.

Lemma bin_id_range (bins : list Q) (v : Q) :
  (2 <= length bins)%nat -> hd 0 bins <= v -> v <= last bins 0 ->
  (1 <= Pandas.bin_id bins true (Some v) < length bins)%nat /\
  Pandas.bin_id bins true (Some v) =
    (if Qeq_bool v (hd 0 bins) then 1%nat else Pandas.searchsorted_left bins v).
Proof.
  intros Hlen Hhd Hlast. unfold Pandas.bin_id. cbn [andb].
  assert (Hne : bins <> []) by (destruct bins; [simpl in Hlen; lia | discriminate]).
  pose proof (searchsorted_left_below_last bins v Hne Hlast) as Hss.
  destruct (Qeq_bool v (hd 0 bins)) eqn:E.
  - destruct (Nat.eqb 1 (length bins)) eqn:E1.
    + apply Nat.eqb_eq in E1. lia.
    + split; [lia | reflexivity].
  - apply Qeq_bool_neq in E.
    assert (Hpos : (1 <= Pandas.searchsorted_left bins v)%nat).
    { destruct bins as [| b bs]; [congruence|]. cbn [hd] in Hhd, E.
      cbn [Pandas.searchsorted_left].
      assert (Hb : Qlt_bool b v = true).
      { apply Qlt_bool_iff. destruct (Qlt_le_dec b v) as [Hlt | Hge]; [exact Hlt|].
        exfalso. apply E. lra. }
      rewrite Hb. lia. }
    destruct (Nat.eqb (Pandas.searchsorted_left bins v) (length bins)) eqn:E1.
    + apply Nat.eqb_eq in E1. lia.
    + split; [lia | reflexivity].
Qed.

Lemma bin_id_mono (bins : list Q) (v w : Q) :
  (2 <= length bins)%nat -> hd 0 bins <= v -> v <= w -> w <= last bins 0 ->
  (Pandas.bin_id bins true (Some v) <= Pandas.bin_id bins true (Some w))%nat.
Proof.
  intros Hlen Hhd Hvw Hlast.
  destruct (bin_id_range bins v Hlen Hhd) as [_ Hv]; [lra|].
  destruct (bin_id_range bins w Hlen) as [Hw1 Hw]; [lra | lra |].
  rewrite Hv. destruct (Qeq_bool v (hd 0 bins)) eqn:E; [lia|].
  rewrite Hw. destruct (Qeq_bool w (hd 0 bins)) eqn:E'.
  - apply Qeq_bool_eq in E'. apply Qeq_bool_neq in E. exfalso. apply E. lra.
  - apply searchsorted_left_mono, Hvw.
Qed.

Lemma bin_id_comp (bins : list Q) (v w : Q) :
  v == w -> Pandas.bin_id bins true (Some v) = Pandas.bin_id bins true (Some w).
Proof.
  intro H. unfold Pandas.bin_id.
  rewrite (searchsorted_left_comp bins v w H).
  assert (Hq : Qeq_bool v (hd 0 bins) = Qeq_bool w (hd 0 bins)).
  { destruct (Qeq_bool w (hd 0 bins)) eqn:E.
    - apply Qeq_bool_iff. apply Qeq_bool_iff in E. lra.
    - apply Qeq_bool_neq in E. destruct (Qeq_bool v (hd 0 bins)) eqn:E'; [| reflexivity].
      apply Qeq_bool_iff in E'. exfalso. apply E. lra. }
  rewrite Hq. reflexivity.
Qed.

(** A value up to the second edge falls in the first bin. *)
Lemma bin_id_first (bins : list Q) (v : Q) :
  (3 <= length bins)%nat -> hd 0 bins <= v -> v <= nth 1 bins 0 ->
  Pandas.bin_id bins true (Some v) = 1%nat.
Proof.
  intros Hlen Hhd H1.
  destruct bins as [| b0 [| b1 bs]]; try (simpl in Hlen; lia).
  cbn [hd nth] in *. unfold Pandas.bin_id. cbn [andb hd].
  destruct (Qeq_bool v b0) eqn:E.
  - destruct (Nat.eqb 1 (length (b0 :: b1 :: bs))) eqn:E1; [| reflexivity].
    apply Nat.eqb_eq in E1. lia.
  - apply Qeq_bool_neq in E. cbn [Pandas.searchsorted_left].
    assert (Hb0 : Qlt_bool b0 v = true).
    { apply Qlt_bool_iff. destruct (Qlt_le_dec b0 v) as [Hlt | Hge]; [exact Hlt|].
      exfalso. apply E. lra. }
    assert (Hb1 : Qlt_bool b1 v = false) by (apply Qlt_bool_false_iff; exact H1).
    rewrite Hb0, Hb1.
    destruct (Nat.eqb 1 (length (b0 :: b1 :: bs))) eqn:E1; [| reflexivity].
    apply Nat.eqb_eq in E1. lia.
Qed.

(** Labels of the four bins. *)
Lemma take_label_descending (id : nat) :
  (1 <= id <= 4)%nat ->
  Pandas.take_label [4; 3; 2; 1]%Z id = Some (5 - Z.of_nat id)%Z.
Proof.
  intro H. destruct id as [| [| [| [| [| id]]]]]; try lia; reflexivity.
Qed.

Lemma take_label_ascending (id : nat) :
  (1 <= id <= 4)%nat ->
  Pandas.take_label [1; 2; 3; 4]%Z id = Some (Z.of_nat id).
Proof.
  intro H. destruct id as [| [| [| [| [| id]]]]]; try lia; reflexivity.
Qed.

Lemma take_label_tier (id : nat) :
  (1 <= id <= 4)%nat ->
  exists t, Pandas.take_label CLV.tier_labels id = Some t /\
            CLV.tier_rank t = (id - 1)%nat.
Proof.
  intro H. destruct id as [| [| [| [| [| id]]]]]; try lia;
    eexists; split; reflexivity.
Qed.

Lemma take_label_in {L : Type} (labels : list L) (id : nat) (l : L) :
  Pandas.take_label labels id = Some l -> In l labels.
Proof.
  destruct id as [| k]; [discriminate|]. simpl. apply nth_error_In.
Qed.

(** ** Customer lifetime value: the claims *)

Lemma add_tier_map (df : list CLV.row) (h : CLV.row -> option CLV.tier) :
  CLV.add_tier df (map h df) = map (fun r => CLV.mkCleaned r (h r)) df.
Proof.
  induction df as [| r df IH]; simpl; [reflexivity|]. rewrite IH. reflexivity.
Qed.

Lemma filled_present (df : list CLV.row) (r : CLV.row) :
  In r (CLV.filled df) -> exists v, CLV.clv_estimate r = Some v.
Proof.
  unfold CLV.filled. rewrite map_map. intro H.
  apply in_map_iff in H. destruct H as [r0 [<- _]]. cbn.
  destruct (CLV.clv_estimate r0) as [v |]; cbn; eauto.
Qed.

Lemma clean_customer_clv_ok (df : list CLV.row) (out : list CLV.cleaned) :
  CLV.clean_customer_clv df = Ok out ->
  exists bins,
    Pandas.qcut_edges (map CLV.clv_estimate (CLV.filled df)) 4 = Some bins /\
    length (Pandas.unique bins) = 5%nat /\
    out = map (fun r => CLV.mkCleaned r
                 (Pandas.take_label CLV.tier_labels
                    (Pandas.bin_id bins true (CLV.clv_estimate r))))
              (CLV.filled df).
Proof.
  unfold CLV.clean_customer_clv. fold (CLV.filled df). intro H.
  apply bind_ok in H. destruct H as [tiers [Hq Hret]]. injection Hret as <-.
  destruct (qcut4_ok _ CLV.tier_labels _ _ eq_refl Hq) as [bins [Hb [Hu ->]]].
  exists bins. split; [exact Hb|]. split; [exact Hu|].
  rewrite map_map. apply add_tier_map.
Qed.

(** Degenerate quartile edges make the CLV cleaner raise. *)
Lemma clean_customer_clv_degenerate (df : list CLV.row) :
  (forall bins,
     Pandas.qcut_edges (map CLV.clv_estimate (CLV.filled df)) 4 = Some bins ->
     (length (Pandas.unique bins) < 5)%nat) ->
  exists e, CLV.clean_customer_clv df = Raise e.
Proof.
  intro Hdeg.
  destruct (CLV.clean_customer_clv df) as [out | e] eqn:E; [| eauto].
  destruct (clean_customer_clv_ok df out E) as [bins [Hb [Hu _]]].
  specialize (Hdeg bins Hb). lia.
Qed.

(** C6: when the CLV cleaner returns, every customer has a CLV estimate and
    a tier, and a customer with a larger estimate has a tier of equal or
    higher rank (Bronze < Silver < Gold < Platinum). *)
Theorem C6_clv_tier_monotone (df : list CLV.row) (out : list CLV.cleaned) :
  CLV.clean_customer_clv df = Ok out ->
  forall a b, In a out -> In b out ->
    exists va vb ta tb,
      CLV.clv_estimate (CLV.base a) = Some va /\
      CLV.clv_estimate (CLV.base b) = Some vb /\
      CLV.clv_tier a = Some ta /\ CLV.clv_tier b = Some tb /\
      (vb < va -> (CLV.tier_rank tb <= CLV.tier_rank ta)%nat).
Proof.
  intros Hrun a b Ha Hb.
  destruct (clean_customer_clv_ok df out Hrun) as [bins [Hedges [_ ->]]].
  pose proof (qcut_edges_length _ _ Hedges) as Hlen.
  apply in_map_iff in Ha. destruct Ha as [ra [<- Hra]].
  apply in_map_iff in Hb. destruct Hb as [rb [<- Hrb]].
  destruct (filled_present df ra Hra) as [va Hva].
  destruct (filled_present df rb Hrb) as [vb Hvb].
  assert (Hca : hd 0 bins <= va <= last bins 0).
  { apply (qcut_edges_cover _ _ _ Hedges). rewrite <- Hva. apply in_map, Hra. }
  assert (Hcb : hd 0 bins <= vb <= last bins 0).
  { apply (qcut_edges_cover _ _ _ Hedges). rewrite <- Hvb. apply in_map, Hrb. }
  cbn [CLV.base CLV.clv_tier]. rewrite Hva, Hvb.
  destruct (bin_id_range bins va) as [Hia _]; [lia | tauto | tauto |].
  destruct (bin_id_range bins vb) as [Hib _]; [lia | tauto | tauto |].
  destruct (take_label_tier (Pandas.bin_id bins true (Some va))) as [ta [Hta Hrka]]; [lia|].
  destruct (take_label_tier (Pandas.bin_id bins true (Some vb))) as [tb [Htb Hrkb]]; [lia|].
  exists va, vb, ta, tb. repeat split; try assumption.
  intro Hlt. rewrite Hrka, Hrkb.
  assert (Hm : (Pandas.bin_id bins true (Some vb) <= Pandas.bin_id bins true (Some va))%nat).
  { apply bin_id_mono; [lia | tauto | lra | tauto]. }
  lia.
Qed.

Lemma C6_clv_tier_monotone_witness :
  CLV.clean_customer_clv Samples.clv4 = Ok Samples.clv4_clean /\
  forall a b, In a Samples.clv4_clean -> In b Samples.clv4_clean ->
    exists va vb ta tb,
      CLV.clv_estimate (CLV.base a) = Some va /\
      CLV.clv_estimate (CLV.base b) = Some vb /\
      CLV.clv_tier a = Some ta /\ CLV.clv_tier b = Some tb /\
      (vb < va -> (CLV.tier_rank tb <= CLV.tier_rank ta)%nat).
Proof.
  assert (Hrun : CLV.clean_customer_clv Samples.clv4 = Ok Samples.clv4_clean)
    by (vm_compute; reflexivity).
  split; [exact Hrun|].
  exact (C6_clv_tier_monotone Samples.clv4 _ Hrun).
Defined.

(** ** RFM segmentation: the claims *)

Lemma add_scores_nth (df : list RFM.row) (rs fs ms : list Z) (s : RFM.scored) :
  In s (RFM.add_scores df rs fs ms) ->
  exists i,
    nth_error df i = Some (RFM.base s) /\
    nth_error rs i = Some (RFM.R_score s) /\
    nth_error fs i = Some (RFM.F_score s) /\
    nth_error ms i = Some (RFM.M_score s) /\
    RFM.RFM_score s = (RFM.R_score s + RFM.F_score s + RFM.M_score s)%Z /\
    RFM.rfm_segment s = RFM.rfm_label (RFM.RFM_score s).
Proof.
  revert rs fs ms.
  induction df as [| x df IH]; intros rs fs ms H; [contradiction|].
  destruct rs as [| r rs]; [contradiction|].
  destruct fs as [| f fs]; [contradiction|].
  destruct ms as [| m ms]; [contradiction|].
  cbn [RFM.add_scores] in H. destruct H as [<- | H].
  - exists 0%nat. cbn. repeat split; reflexivity.
  - destruct (IH rs fs ms H) as [i Hi]. exists (S i). exact Hi.
Qed.

Lemma score_at {A : Type} (g : A -> option Z) (xs : list A) (zs : list Z)
    (i : nat) (x : A) (z : Z) :
  map g xs = map Some zs -> nth_error xs i = Some x -> nth_error zs i = Some z ->
  g x = Some z.
Proof.
  intros Hmap Hx Hz.
  apply (map_nth_error g) in Hx. apply (map_nth_error Some) in Hz.
  rewrite Hmap, Hz in Hx. injection Hx as Hx. symmetry. exact Hx.
Qed.

(** What a returning run of [clean_rfm] says about each of its rows. *)
Lemma clean_rfm_ok (df : list RFM.row) (out : list RFM.scored) :
  RFM.clean_rfm df = Ok out ->
  exists rbins mbins,
    Pandas.qcut_edges (map RFM.recency_days df) 4 = Some rbins /\
    Pandas.qcut_edges (map RFM.monetary df) 4 = Some mbins /\
    forall s, In s out ->
      In (RFM.base s) df /\
      Pandas.take_label [4; 3; 2; 1]%Z
        (Pandas.bin_id rbins true (RFM.recency_days (RFM.base s)))
        = Some (RFM.R_score s) /\
      Pandas.take_label [1; 2; 3; 4]%Z
        (Pandas.bin_id mbins true (RFM.monetary (RFM.base s)))
        = Some (RFM.M_score s) /\
      In (RFM.F_score s) [1; 2; 3; 4]%Z /\
      RFM.RFM_score s = (RFM.R_score s + RFM.F_score s + RFM.M_score s)%Z /\
      RFM.rfm_segment s = RFM.rfm_label (RFM.RFM_score s).
Proof.
  unfold RFM.clean_rfm. intro H.
  apply bind_ok in H. destruct H as [rc [Hrc H]].
  apply bind_ok in H. destruct H as [rs [Hrs H]].
  apply bind_ok in H. destruct H as [fc [Hfc H]].
  apply bind_ok in H. destruct H as [fs [Hfs H]].
  apply bind_ok in H. destruct H as [mc [Hmc H]].
  apply bind_ok in H. destruct H as [ms [Hms H]].
  injection H as <-.
  destruct (qcut4_ok _ [4; 3; 2; 1]%Z _ _ eq_refl Hrc) as [rbins [Hrb [_ Hrcol]]].
  destruct (qcut4_ok _ [1; 2; 3; 4]%Z _ _ eq_refl Hfc) as [fbins [Hfb [_ Hfcol]]].
  destruct (qcut4_ok _ [1; 2; 3; 4]%Z _ _ eq_refl Hmc) as [mbins [Hmb [_ Hmcol]]].
  apply astype_int_ok in Hrs, Hfs, Hms.
  rewrite Hrs, map_map in Hrcol. rewrite Hms, map_map in Hmcol.
  rewrite Hfs in Hfcol. symmetry in Hrcol, Hmcol.
  exists rbins, mbins. split; [exact Hrb|]. split; [exact Hmb|].
  intros s Hs.
  destruct (add_scores_nth df rs fs ms s Hs) as [i [Hd [Hr [Hf [Hm [Hsum Hseg]]]]]].
  split; [eapply nth_error_In, Hd|].
  split; [exact (score_at _ _ _ _ _ _ Hrcol Hd Hr)|].
  split; [exact (score_at _ _ _ _ _ _ Hmcol Hd Hm)|].
  split; [| split; assumption].
  apply (map_nth_error Some) in Hf. rewrite Hfcol in Hf.
  apply nth_error_In in Hf. apply in_map_iff in Hf. destruct Hf as [v [Hv _]].
  eapply take_label_in, Hv.
Qed.

Lemma label_1_4 (z : Z) :
  In z [4; 3; 2; 1]%Z \/ In z [1; 2; 3; 4]%Z -> (1 <= z <= 4)%Z.
Proof. cbn. intros [H | H]; lia. Qed.

Lemma rfm_label_table (score : Z) :
  ((10 <= score)%Z -> RFM.rfm_label score = "Champions"%string) /\
  ((8 <= score <= 9)%Z -> RFM.rfm_label score = "Loyal Customers"%string) /\
  ((6 <= score <= 7)%Z -> RFM.rfm_label score = "Potential Loyalists"%string) /\
  ((4 <= score <= 5)%Z -> RFM.rfm_label score = "At Risk"%string) /\
  ((score < 4)%Z -> RFM.rfm_label score = "Lost Customers"%string).
Proof.
  unfold RFM.rfm_label.
  destruct (Z.leb_spec 10 score); destruct (Z.leb_spec 8 score);
    destruct (Z.leb_spec 6 score); destruct (Z.leb_spec 4 score);
    repeat split; intros; try reflexivity; lia.
Qed.

(** C3: for every row returned by [clean_rfm] the three scores are between
    1 and 4, RFM_score is their sum and lies in [3,12], and rfm_segment is
    given by the threshold table: >= 10 Champions, 8-9 Loyal Customers, 6-7
    Potential Loyalists, 4-5 At Risk, < 4 Lost Customers. *)
Theorem C3_rfm_score_and_segment (df : list RFM.row) (out : list RFM.scored) :
  RFM.clean_rfm df = Ok out ->
  forall s, In s out ->
    (1 <= RFM.R_score s <= 4)%Z /\ (1 <= RFM.F_score s <= 4)%Z /\
    (1 <= RFM.M_score s <= 4)%Z /\
    RFM.RFM_score s = (RFM.R_score s + RFM.F_score s + RFM.M_score s)%Z /\
    (3 <= RFM.RFM_score s <= 12)%Z /\
    ((10 <= RFM.RFM_score s)%Z -> RFM.rfm_segment s = "Champions"%string) /\
    ((8 <= RFM.RFM_score s <= 9)%Z -> RFM.rfm_segment s = "Loyal Customers"%string) /\
    ((6 <= RFM.RFM_score s <= 7)%Z -> RFM.rfm_segment s = "Potential Loyalists"%string) /\
    ((4 <= RFM.RFM_score s <= 5)%Z -> RFM.rfm_segment s = "At Risk"%string) /\
    ((RFM.RFM_score s < 4)%Z -> RFM.rfm_segment s = "Lost Customers"%string).
Proof.
  intros Hrun s Hs.
  destruct (clean_rfm_ok df out Hrun) as [rbins [mbins [_ [_ Hrows]]]].
  destruct (Hrows s Hs) as [_ [Hr [Hm [Hf [Hsum Hseg]]]]].
  apply take_label_in in Hr, Hm.
  assert (HR : (1 <= RFM.R_score s <= 4)%Z) by (apply label_1_4; left; exact Hr).
  assert (HM : (1 <= RFM.M_score s <= 4)%Z) by (apply label_1_4; right; exact Hm).
  assert (HF : (1 <= RFM.F_score s <= 4)%Z) by (apply label_1_4; right; exact Hf).
  split; [exact HR|]. split; [exact HF|]. split; [exact HM|].
  split; [exact Hsum|]. split; [lia|].
  rewrite Hseg. apply rfm_label_table.
Qed.

Lemma C3_rfm_score_and_segment_witness :
  RFM.clean_rfm Samples.rfm4 = Ok Samples.rfm4_scored /\
  forall s, In s Samples.rfm4_scored ->
    RFM.RFM_score s = (RFM.R_score s + RFM.F_score s + RFM.M_score s)%Z /\
    (3 <= RFM.RFM_score s <= 12)%Z.
Proof.
  assert (Hrun : RFM.clean_rfm Samples.rfm4 = Ok Samples.rfm4_scored)
    by (vm_compute; reflexivity).
  split; [exact Hrun|].
  intros s Hs.
  destruct (C3_rfm_score_and_segment Samples.rfm4 _ Hrun s Hs)
    as [_ [_ [_ [Hsum [Hrange _]]]]].
  split; assumption.
Defined.

(** A scored row carries its bin number: the value is present, lies within
    the edges, and the bin number is between 1 and 4. *)
Lemma scored_bin {L : Type} (labels : list L) (xs : list num) (bins : list Q)
    (x : num) (l : L) :
  Pandas.qcut_edges xs 4 = Some bins -> In x xs ->
  Pandas.take_label labels (Pandas.bin_id bins true x) = Some l ->
  exists v, x = Some v /\ hd 0 bins <= v <= last bins 0 /\
            (1 <= Pandas.bin_id bins true (Some v) <= 4)%nat.
Proof.
  intros Hb Hin Hl. destruct x as [v |]; [| discriminate].
  exists v. split; [reflexivity|].
  pose proof (qcut_edges_cover xs bins v Hb Hin) as Hc.
  pose proof (qcut_edges_length xs bins Hb) as Hlen.
  split; [exact Hc|].
  destruct (bin_id_range bins v) as [Hr _]; [lia | tauto | tauto | lia].
Qed.

(** C7: when [clean_rfm] returns, a customer with a smaller recency_days
    has an R_score at least as high, and every customer whose recency_days
    is at most the first quartile edge has R_score 4. *)
Theorem C7_recency_inverted (df : list RFM.row) (out : list RFM.scored) :
  RFM.clean_rfm df = Ok out ->
  exists rbins,
    Pandas.qcut_edges (map RFM.recency_days df) 4 = Some rbins /\
    (forall a b, In a out -> In b out ->
       exists va vb,
         RFM.recency_days (RFM.base a) = Some va /\
         RFM.recency_days (RFM.base b) = Some vb /\
         (va < vb -> (RFM.R_score b <= RFM.R_score a)%Z)) /\
    (forall s v, In s out -> RFM.recency_days (RFM.base s) = Some v ->
       v <= nth 1 rbins 0 -> RFM.R_score s = 4%Z).
Proof.
  intro Hrun.
  destruct (clean_rfm_ok df out Hrun) as [rbins [mbins [Hrb [_ Hrows]]]].
  pose proof (qcut_edges_length _ _ Hrb) as Hlen.
  exists rbins. split; [exact Hrb|]. split.
  - intros a b Ha Hb.
    destruct (Hrows a Ha) as [Hina [Hra _]].
    destruct (Hrows b Hb) as [Hinb [Hrb' _]].
    destruct (scored_bin _ _ _ _ _ Hrb (in_map RFM.recency_days _ _ Hina) Hra)
      as [va [Hva [Hca Hia]]].
    destruct (scored_bin _ _ _ _ _ Hrb (in_map RFM.recency_days _ _ Hinb) Hrb')
      as [vb [Hvb [Hcb Hib]]].
    exists va, vb. split; [exact Hva|]. split; [exact Hvb|].
    intro Hlt. rewrite Hva in Hra. rewrite Hvb in Hrb'.
    rewrite take_label_descending in Hra, Hrb' by assumption.
    assert (Ea : RFM.R_score a = (5 - Z.of_nat (Pandas.bin_id rbins true (Some va)))%Z)
      by congruence.
    assert (Eb : RFM.R_score b = (5 - Z.of_nat (Pandas.bin_id rbins true (Some vb)))%Z)
      by congruence.
    assert (Hm : (Pandas.bin_id rbins true (Some va)
                  <= Pandas.bin_id rbins true (Some vb))%nat).
    { apply bin_id_mono; [lia | tauto | lra | tauto]. }
    rewrite Ea, Eb. lia.
  - intros s v Hs Hv Hq.
    destruct (Hrows s Hs) as [Hin [Hr _]].
    destruct (scored_bin _ _ _ _ _ Hrb (in_map RFM.recency_days _ _ Hin) Hr)
      as [v' [Hv' [Hc _]]].
    rewrite Hv in Hv'. injection Hv' as <-. rewrite Hv in Hr.
    rewrite (bin_id_first rbins v) in Hr; [| lia | tauto | exact Hq].
    cbn in Hr. injection Hr as <-. reflexivity.
Qed.

Lemma C7_recency_inverted_witness :
  RFM.clean_rfm Samples.rfm4 = Ok Samples.rfm4_scored /\
  forall a b, In a Samples.rfm4_scored -> In b Samples.rfm4_scored ->
    exists va vb,
      RFM.recency_days (RFM.base a) = Some va /\
      RFM.recency_days (RFM.base b) = Some vb /\
      (va < vb -> (RFM.R_score b <= RFM.R_score a)%Z).
Proof.
  assert (Hrun : RFM.clean_rfm Samples.rfm4 = Ok Samples.rfm4_scored)
    by (vm_compute; reflexivity).
  split; [exact Hrun|].
  destruct (C7_recency_inverted Samples.rfm4 _ Hrun) as [rbins [_ [Hmono _]]].
  exact Hmono.
Defined.

(** C10: F_score is cut from the first-come rank of frequency, so in the
    sample table, where all four customers have frequency 1, the first two
    get F_score 1 and 2; M_score is cut from monetary itself, so two
    customers with equal monetary always get equal M_scores. *)
Theorem C10_frequency_ties_split :
  (exists df out a b,
     RFM.clean_rfm df = Ok out /\ In a out /\ In b out /\
     num_eqb (RFM.frequency (RFM.base a)) (RFM.frequency (RFM.base b)) = true /\
     RFM.F_score a <> RFM.F_score b) /\
  (forall df out a b,
     RFM.clean_rfm df = Ok out -> In a out -> In b out ->
     num_eqb (RFM.monetary (RFM.base a)) (RFM.monetary (RFM.base b)) = true ->
     RFM.M_score a = RFM.M_score b).
Proof.
  split.
  - exists Samples.rfm4, Samples.rfm4_scored,
      (nth 0 Samples.rfm4_scored (RFM.mkScored (Samples.customer 0 0 0 0) 0 0 0 0 "")),
      (nth 1 Samples.rfm4_scored (RFM.mkScored (Samples.customer 0 0 0 0) 0 0 0 0 "")).
    split; [vm_compute; reflexivity|].
    split; [left; reflexivity|].
    split; [right; left; reflexivity|].
    split; [reflexivity | discriminate].
  - intros df out a b Hrun Ha Hb Heq.
    destruct (clean_rfm_ok df out Hrun) as [rbins [mbins [_ [Hmb Hrows]]]].
    destruct (Hrows a Ha) as [_ [_ [Hma _]]].
    destruct (Hrows b Hb) as [_ [_ [Hmb' _]]].
    destruct (RFM.monetary (RFM.base a)) as [va |]; [| discriminate].
    destruct (RFM.monetary (RFM.base b)) as [vb |]; [| discriminate].
    cbn [num_eqb] in Heq. apply Qeq_bool_eq in Heq.
    rewrite (bin_id_comp mbins va vb Heq) in Hma.
    rewrite Hma in Hmb'. injection Hmb' as ->. reflexivity.
Qed.

Lemma C10_frequency_ties_split_witness :
  RFM.clean_rfm Samples.rfm4 = Ok Samples.rfm4_scored /\
  forall a b, In a Samples.rfm4_scored -> In b Samples.rfm4_scored ->
    num_eqb (RFM.monetary (RFM.base a)) (RFM.monetary (RFM.base b)) = true ->
    RFM.M_score a = RFM.M_score b.
Proof.
  assert (Hrun : RFM.clean_rfm Samples.rfm4 = Ok Samples.rfm4_scored)
    by (vm_compute; reflexivity).
  split; [exact Hrun|].
  intros a b.
  exact (proj2 C10_frequency_ties_split Samples.rfm4 _ a b Hrun).
Defined.

(** C1: on degenerate quartiles the cleaners raise.  With all CLV estimates
    equal the five edges collapse to one and [clean_customer_clv] raises;
    [clean_rfm] raises when recency_days, or monetary alone, is constant. *)
Theorem C1_degenerate_quartiles_raise :
  (exists bins,
     Pandas.qcut_edges (map CLV.clv_estimate (CLV.filled Samples.clv_flat)) 4 = Some bins /\
     length (Pandas.unique bins) = 1%nat) /\
  CLV.clean_customer_clv Samples.clv_flat =
    Raise (ValueError "Bin labels must be one fewer than the number of bin edges") /\
  RFM.clean_rfm Samples.rfm_flat =
    Raise (ValueError "Bin labels must be one fewer than the number of bin edges") /\
  RFM.clean_rfm Samples.rfm_flat_money =
    Raise (ValueError "Bin labels must be one fewer than the number of bin edges").
Proof.
  split; [eexists; split; vm_compute; reflexivity|].
  repeat split; vm_compute; reflexivity.
Qed.

(** * Further properties of the cleaners *)

(** ** Sales fact: derived percentage *)

Lemma round_half_even_close (x : Q) :
  x - (1 # 2) <= inject_Z (Pandas.round_half_even x) <= x + (1 # 2).
Proof.
  unfold Pandas.round_half_even. cbv zeta.
  pose proof (Qfloor_le x) as Hlo. pose proof (Qlt_floor x) as Hhi.
  rewrite inject_Z_plus in Hhi. change (inject_Z 1) with 1 in Hhi.
  destruct (Qlt_bool (x - inject_Z (Qfloor x)) (1 # 2)) eqn:E1.
  - apply Qlt_bool_iff in E1. split; lra.
  - apply Qlt_bool_false_iff in E1.
    destruct (Qlt_bool (1 # 2) (x - inject_Z (Qfloor x))) eqn:E2.
    + rewrite inject_Z_plus. change (inject_Z 1) with 1. split; lra.
    + apply Qlt_bool_false_iff in E2.
      destruct (Z.even (Qfloor x)).
      * split; lra.
      * rewrite inject_Z_plus. change (inject_Z 1) with 1. split; lra.
Qed.

(** X1: every cleaned row has a discount and a discount_pct; discount_pct is
    a whole number of tenths within 0.05 of 100 times the (filled) discount,
    so a row that came in without a discount has discount_pct 0. *)
Theorem X1_discount_pct_rounded (df : list Sales.row) (out : list Sales.cleaned) :
  Sales.clean_sales_fact df = Ok out ->
  forall c, In c out ->
    exists d p k,
      Sales.discount (Sales.base c) = Some d /\
      Sales.discount_pct c = Some p /\
      p == inject_Z k / 10 /\
      d * 100 - (1 # 20) <= p <= d * 100 + (1 # 20) /\
      (d == 0 -> p == 0).
Proof.
  intros Hrun c Hc.
  destruct (clean_sales_fact_in df out c Hrun Hc) as [r [_ ->]].
  set (d := match Sales.discount r with Some d => d | None => 0 end).
  assert (Hd : Sales.discount
                 (Sales.base (Sales.clean_row (Sales.shipping_fill df)
                                (Sales.margin_cap df) r)) = Some d).
  { cbn. unfold d. destruct (Sales.discount r); reflexivity. }
  assert (Hp : Sales.discount_pct
                 (Sales.clean_row (Sales.shipping_fill df) (Sales.margin_cap df) r)
               = Some (inject_Z (Pandas.round_half_even (d * 100 * 10)) / 10)).
  { cbn. unfold d. destruct (Sales.discount r); reflexivity. }
  exists d, (inject_Z (Pandas.round_half_even (d * 100 * 10)) / 10),
    (Pandas.round_half_even (d * 100 * 10)).
  split; [exact Hd|]. split; [exact Hp|]. split; [reflexivity|].
  pose proof (round_half_even_close (d * 100 * 10)) as Hr.
  set (z := inject_Z (Pandas.round_half_even (d * 100 * 10))) in *.
  assert (Hdiv : z / 10 == z * (1 # 10)) by (unfold Qdiv; reflexivity).
  split.
  - rewrite Hdiv. split; lra.
  - intro H0.
    assert (Hk : Pandas.round_half_even (d * 100 * 10) = 0%Z).
    { assert (H1 : inject_Z (-1) < z) by (change (inject_Z (-1)) with (-1 # 1); lra).
      assert (H2 : z < inject_Z 1) by (change (inject_Z 1) with 1; lra).
      unfold z in H1, H2. rewrite <- Zlt_Qlt in H1, H2. lia. }
    unfold z. rewrite Hk. reflexivity.
Qed.

Lemma X1_discount_pct_rounded_witness :
  Sales.clean_sales_fact Samples.sales5 = Ok Samples.sales5_clean /\
  forall c, In c Samples.sales5_clean ->
    exists d p k,
      Sales.discount (Sales.base c) = Some d /\
      Sales.discount_pct c = Some p /\
      p == inject_Z k / 10 /\
      d * 100 - (1 # 20) <= p <= d * 100 + (1 # 20) /\
      (d == 0 -> p == 0).
Proof.
  assert (Hrun : Sales.clean_sales_fact Samples.sales5 = Ok Samples.sales5_clean)
    by (vm_compute; reflexivity).
  split; [exact Hrun|].
  exact (X1_discount_pct_rounded Samples.sales5 _ Hrun).
Defined.

(** ** Sales fact: standardized text *)















(** ** Sales fact: duplicates are dropped before text is standardized *)




(** ** Sales fact: the cap and the fill value come from the data *)

Lemma in_sort (l : list Q) (v : Q) : In v (Pandas.QSort.sort l) -> In v l.
Proof.
  apply Permutation_in, Permutation_sym, Pandas.QSort.Permuted_sort.
Qed.

(** A quantile lies between two present values of the column. *)
Lemma quantile_between_values (xs : list num) (q c : Q) :
  0 <= q <= 1 -> Pandas.quantile xs q = Some c ->
  exists lo hi, In (Some lo) xs /\ In (Some hi) xs /\ lo <= c /\ c <= hi.
Proof.
  intros Hq H. unfold Pandas.quantile in H.
  destruct (Pandas.dropna xs) as [| v vs] eqn:E; [discriminate|].
  injection H as <-. rewrite <- E.
  set (a := Pandas.QSort.sort (Pandas.dropna xs)).
  assert (Hs : StronglySorted (fun x y : Q => is_true (Qle_bool x y)) a)
    by apply sort_sorted.
  assert (Hne : a <> []).
  { apply sort_nonempty. rewrite E. discriminate. }
  destruct (quantile_sorted_between a q Hs Hne Hq) as [Hlo Hhi].
  cbv zeta in Hlo, Hhi.
  set (n := Z.of_nat (length a)) in *.
  assert (Hn : (1 <= n)%Z).
  { unfold n. destruct a; [congruence | simpl length; lia]. }
  destruct (quantile_position n q Hn Hq) as [[Hl0 Hl1] _].
  exists (nth (Z.to_nat (Qfloor (inject_Z (n - 1) * q))) a 0),
    (nth (Z.to_nat (Z.min (Qfloor (inject_Z (n - 1) * q) + 1) (n - 1))) a 0).
  repeat split; try assumption.
  - apply in_dropna, in_sort. apply nth_In. fold a. unfold n in *. lia.
  - apply in_dropna, in_sort. apply nth_In. fold a. unfold n in *. lia.
Qed.

(** The median lies between two present values of the column. *)
Lemma median_between_values (xs : list num) (m : Q) :
  Pandas.median xs = Some m ->
  exists lo hi, In (Some lo) xs /\ In (Some hi) xs /\ lo <= m /\ m <= hi.
Proof.
  intro H. unfold Pandas.median in H.
  destruct (Pandas.dropna xs) as [| v vs] eqn:E; [discriminate|].
  rewrite <- E in H. cbv zeta in H.
  set (a := Pandas.QSort.sort (Pandas.dropna xs)) in *.
  assert (Hs : StronglySorted (fun x y : Q => is_true (Qle_bool x y)) a)
    by apply sort_sorted.
  assert (Hlen : (1 <= length a)%nat).
  { unfold a. rewrite sort_length, E. simpl. lia. }
  assert (Hhalf : (length a / 2 < length a)%nat)
    by (apply Nat.div_lt; lia).
  assert (Hle : nth (length a / 2 - 1) a 0 <= nth (length a / 2) a 0)
    by (apply sorted_nth_le; [exact Hs | lia | exact Hhalf]).
  assert (Hin1 : In (Some (nth (length a / 2 - 1) a 0)) xs)
    by (apply in_dropna, in_sort, nth_In; fold a; lia).
  assert (Hin2 : In (Some (nth (length a / 2) a 0)) xs)
    by (apply in_dropna, in_sort, nth_In; fold a; lia).
  set (x := nth (length a / 2 - 1) a 0) in *.
  set (y := nth (length a / 2) a 0) in *.
  clearbody x y.
  destruct (Nat.even (length a)); injection H as <-.
  - exists x, y. split; [exact Hin1|]. split; [exact Hin2|].
    unfold Qdiv. change (/ 2) with (1 # 2). split; lra.
  - exists y, y. split; [exact Hin2|]. split; [exact Hin2|]. split; lra.
Qed.

(** X4: the 99th-percentile cap lies between two margins present among the
    surviving rows, and it is attained: some cleaned row has exactly the cap
    as its profit_margin_pct. *)
Theorem X4_margin_cap_attained (df : list Sales.row) (out : list Sales.cleaned)
    (cap : Q) :
  Sales.clean_sales_fact df = Ok out ->
  Sales.margin_cap df = Some cap ->
  (exists r v, In r (Sales.filtered df) /\
               Sales.profit_margin_pct r = Some v /\ v <= cap) /\
  (exists r v, In r (Sales.filtered df) /\
               Sales.profit_margin_pct r = Some v /\ cap <= v) /\
  (exists c v, In c out /\
               Sales.profit_margin_pct (Sales.base c) = Some v /\ v == cap).
Proof.
  intros Hrun Hcap.
  assert (Hq : 0 <= 99 # 100 <= 1) by (split; discriminate).
  destruct (quantile_between_values _ _ _ Hq Hcap) as [lo [hi [Hlo [Hhi [Hl Hh]]]]].
  apply in_map_iff in Hlo. destruct Hlo as [rlo [Hvlo Hrlo]].
  apply in_map_iff in Hhi. destruct Hhi as [rhi [Hvhi Hrhi]].
  split; [exists rlo, lo; auto|]. split; [exists rhi, hi; auto|].
  exists (Sales.clean_row (Sales.shipping_fill df) (Sales.margin_cap df) rhi).
  rewrite clean_sales_fact_rows in Hrun. injection Hrun as <-.
  change (Sales.profit_margin_pct
            (Sales.base (Sales.clean_row (Sales.shipping_fill df)
                           (Sales.margin_cap df) rhi)))
    with (Pandas.clip_upper (Sales.margin_cap df) (Sales.profit_margin_pct rhi)).
  rewrite Hcap, Hvhi. unfold Pandas.clip_upper.
  destruct (Qlt_bool cap hi) eqn:E.
  - exists cap. split; [apply in_map, Hrhi|]. split; reflexivity.
  - apply Qlt_bool_false_iff in E. exists hi.
    split; [apply in_map, Hrhi|]. split; [reflexivity | lra].
Qed.

Lemma X4_margin_cap_attained_witness :
  Sales.clean_sales_fact Samples.sales5 = Ok Samples.sales5_clean /\
  Sales.margin_cap Samples.sales5 = Some (88300 # 100) /\
  exists c v, In c Samples.sales5_clean /\
              Sales.profit_margin_pct (Sales.base c) = Some v /\ v == 88300 # 100.
Proof.
  assert (Hrun : Sales.clean_sales_fact Samples.sales5 = Ok Samples.sales5_clean)
    by (vm_compute; reflexivity).
  assert (Hcap : Sales.margin_cap Samples.sales5 = Some (88300 # 100))
    by (vm_compute; reflexivity).
  split; [exact Hrun|]. split; [exact Hcap|].
  exact (proj2 (proj2 (X4_margin_cap_attained Samples.sales5 _ _ Hrun Hcap))).
Defined.

(** X5: the value that fills a missing shipping_days lies between two
    shipping_days present among the surviving rows, so every cleaned
    shipping_days does. *)
Theorem X5_shipping_fill_in_range (df : list Sales.row) (out : list Sales.cleaned) :
  Sales.clean_sales_fact df = Ok out ->
  forall c d, In c out -> Sales.shipping_days (Sales.base c) = Some d ->
    exists rlo rhi lo hi,
      In rlo (Sales.filtered df) /\ In rhi (Sales.filtered df) /\
      Sales.shipping_days rlo = Some lo /\ Sales.shipping_days rhi = Some hi /\
      lo <= d /\ d <= hi.
Proof.
  intros Hrun c d Hc Hd.
  destruct (clean_sales_fact_in df out c Hrun Hc) as [r [Hr ->]].
  change (Sales.shipping_days
            (Sales.base (Sales.clean_row (Sales.shipping_fill df)
                           (Sales.margin_cap df) r)))
    with (Pandas.fillna (Sales.shipping_fill df) (Sales.shipping_days r)) in Hd.
  unfold Pandas.fillna in Hd.
  destruct (Sales.shipping_days r) as [d0 |] eqn:E.
  - injection Hd as ->. exists r, r, d, d. repeat split; try assumption; lra.
  - rename Hd into Hs. unfold Sales.shipping_fill in Hs.
    destruct (median_between_values _ _ Hs) as [lo [hi [Hlo [Hhi [Hl Hh]]]]].
    apply in_map_iff in Hlo. destruct Hlo as [rlo [Hvlo Hrlo]].
    apply in_map_iff in Hhi. destruct Hhi as [rhi [Hvhi Hrhi]].
    exists rlo, rhi, lo, hi. repeat split; assumption.
Qed.

Lemma X5_shipping_fill_in_range_witness :
  Sales.clean_sales_fact Samples.sales5 = Ok Samples.sales5_clean /\
  forall c d, In c Samples.sales5_clean ->
    Sales.shipping_days (Sales.base c) = Some d ->
    exists rlo rhi lo hi,
      In rlo (Sales.filtered Samples.sales5) /\ In rhi (Sales.filtered Samples.sales5) /\
      Sales.shipping_days rlo = Some lo /\ Sales.shipping_days rhi = Some hi /\
      lo <= d /\ d <= hi.
Proof.
  assert (Hrun : Sales.clean_sales_fact Samples.sales5 = Ok Samples.sales5_clean)
    by (vm_compute; reflexivity).
  split; [exact Hrun|].
  exact (X5_shipping_fill_in_range Samples.sales5 _ Hrun).
Defined.

(** ** Customer lifetime value: when the cleaner returns *)

Lemma filter_full_length {A : Type} (f : A -> bool) (l : list A) :
  length (filter f l) = length l -> forall x, In x l -> f x = true.
Proof.
  induction l as [| a l IH]; intros Hlen x Hx; [contradiction|].
  simpl in Hlen. pose proof (filter_length_le f l) as Hle.
  destruct (f a) eqn:E.
  - simpl in Hlen. destruct Hx as [<- | Hx]; [exact E | apply IH; [lia | exact Hx]].
  - lia.
Qed.

Lemma filter_all {A : Type} (f : A -> bool) (l : list A) :
  (forall x, In x l -> f x = true) -> filter f l = l.
Proof.
  induction l as [| a l IH]; intro H; [reflexivity|].
  simpl. rewrite (H a (or_introl eq_refl)). f_equal.
  apply IH. intros x Hx. apply H. right. exact Hx.
Qed.

(** Edges that [unique] leaves at full length are pairwise different. *)
Lemma unique_full (bins : list Q) :
  length (Pandas.unique bins) = length bins ->
  Pandas.unique bins = bins /\
  ForallOrdPairs (fun a b => ~ a == b) bins.
Proof.
  induction bins as [| b bs IH]; intro Hlen; [split; [reflexivity | constructor]|].
  simpl in Hlen.
  pose proof (filter_length_le (fun c => negb (Qeq_bool b c)) (Pandas.unique bs)) as H1.
  pose proof (unique_length_le bs) as H2.
  destruct IH as [Hu Hpairs]; [lia|].
  assert (Hall : forall c, In c bs -> negb (Qeq_bool b c) = true).
  { rewrite <- Hu. apply filter_full_length. lia. }
  split.
  - simpl. rewrite Hu. f_equal. apply filter_all. exact Hall.
  - constructor; [| exact Hpairs].
    apply Forall_forall. intros c Hc Heq.
    specialize (Hall c Hc). apply negb_true_iff in Hall.
    apply Qeq_bool_neq in Hall. contradiction.
Qed.

(** Conversely, pairwise different edges are all kept. *)
Lemma unique_of_distinct (bins : list Q) :
  ForallOrdPairs (fun a b => ~ a == b) bins -> Pandas.unique bins = bins.
Proof.
  induction 1 as [| b bs Hb Hpairs IH]; [reflexivity|].
  simpl. rewrite IH. f_equal. apply filter_all.
  intros c Hc. rewrite Forall_forall in Hb. apply negb_true_iff.
  destruct (Qeq_bool b c) eqn:E; [| reflexivity].
  apply Qeq_bool_eq in E. exfalso. exact (Hb c Hc E).
Qed.

(** The quartile cut with four labels returns exactly when the column has a
    present value and its five edges are pairwise different. *)
Lemma qcut4_returns_iff {L : Type} (x : list num) (labels : list L)
    (pol : Pandas.dup_policy) :
  length labels = 4%nat ->
  ((exists col, Pandas.qcut x 4 labels pol = Ok col) <->
   (exists bins, Pandas.qcut_edges x 4 = Some bins /\
                 ForallOrdPairs (fun a b => ~ a == b) bins)).
Proof.
  intro Hl. split.
  - intros [col Hcol].
    destruct (qcut4_ok x labels pol col Hl Hcol) as [bins [Hb [Hu _]]].
    exists bins. split; [exact Hb|].
    apply unique_full. rewrite Hu. symmetry. eapply qcut_edges_length, Hb.
  - intros [bins [Hb Hd]].
    unfold Pandas.qcut. rewrite Hb. unfold Pandas.bins_to_cuts.
    rewrite (unique_of_distinct bins Hd), Nat.ltb_irrefl. cbn [andb bind].
    rewrite Hl, (qcut_edges_length x bins Hb). cbn [Nat.eqb negb].
    eexists. reflexivity.
Qed.

Lemma quantile_of_sorted (x : list num) (q : Q) :
  Pandas.dropna x <> [] ->
  Pandas.quantile x q
  = Some (Pandas.quantile_sorted (Pandas.QSort.sort (Pandas.dropna x)) q).
Proof.
  intro Hne. unfold Pandas.quantile.
  destruct (Pandas.dropna x); [congruence | reflexivity].
Qed.

(** A column whose present values are all equal has equal quartile edges. *)
Lemma constant_column_edges (x : list num) (bins : list Q) :
  (forall v w, In (Some v) x -> In (Some w) x -> v == w) ->
  Pandas.qcut_edges x 4 = Some bins ->
  nth 0 bins 0 == nth 1 bins 0.
Proof.
  intros Hconst Hb. destruct (qcut_edges_shape x bins Hb) as [Hne ->].
  cbn [nth].
  pose proof (quantile_of_sorted x (0 # 4) Hne) as H0.
  pose proof (quantile_of_sorted x (1 # 4) Hne) as H1.
  assert (Hq0 : 0 <= 0 # 4 <= 1) by (split; discriminate).
  assert (Hq1 : 0 <= 1 # 4 <= 1) by (split; discriminate).
  destruct (quantile_between_values _ _ _ Hq0 H0) as [l0 [h0 [Hl0 [Hh0 [Ha0 Hb0]]]]].
  destruct (quantile_between_values _ _ _ Hq1 H1) as [l1 [h1 [Hl1 [Hh1 [Ha1 Hb1]]]]].
  pose proof (Hconst _ _ Hl0 Hh0). pose proof (Hconst _ _ Hl1 Hh1).
  pose proof (Hconst _ _ Hl0 Hl1). lra.
Qed.

Lemma short_column_constant (x : list num) :
  (length x <= 1)%nat ->
  forall v w, In (Some v) x -> In (Some w) x -> v == w.
Proof.
  intros Hlen v w Hv Hw.
  destruct x as [| a [| b x]]; [contradiction | | simpl in Hlen; lia].
  destruct Hv as [Hv | []]. destruct Hw as [Hw | []].
  assert (E : Some v = Some w) by congruence. injection E as ->. reflexivity.
Qed.

(** With the policy to drop duplicate edges the cut either returns or
    raises on the label count. *)
Lemma qcut4_drop_cases {L : Type} (x : list num) (labels : list L) :
  (exists col, Pandas.qcut x 4 labels Pandas.DupDrop = Ok col) \/
  Pandas.qcut x 4 labels Pandas.DupDrop
  = Raise (ValueError "Bin labels must be one fewer than the number of bin edges").
Proof.
  unfold Pandas.qcut. destruct (Pandas.qcut_edges x 4) as [bins |]; [| right; reflexivity].
  unfold Pandas.bins_to_cuts.
  destruct (Nat.ltb (length (Pandas.unique bins)) (length bins)
            && negb (Nat.eqb (length bins) 2)); cbn [bind];
    match goal with
    | |- context [if negb ?b then _ else _] => destruct b; cbn [negb]
    end; (left; eexists; reflexivity) || (right; reflexivity).
Qed.

Lemma qcut4_constant_raises {L : Type} (x : list num) (labels : list L) :
  length labels = 4%nat ->
  (forall v w, In (Some v) x -> In (Some w) x -> v == w) ->
  Pandas.qcut x 4 labels Pandas.DupDrop
  = Raise (ValueError "Bin labels must be one fewer than the number of bin edges").
Proof.
  intros Hl Hconst.
  destruct (qcut4_drop_cases x labels) as [Hok | Hraise]; [| exact Hraise].
  exfalso. apply (qcut4_returns_iff x labels Pandas.DupDrop Hl) in Hok.
  destruct Hok as [bins [Hb Hd]].
  pose proof (constant_column_edges x bins Hconst Hb) as Heq.
  destruct (qcut_edges_shape x bins Hb) as [_ Hshape].
  rewrite Hshape in Hd, Heq. cbn [nth] in Heq.
  inversion Hd as [| e0 rest Hfirst _]; subst.
  rewrite Forall_forall in Hfirst. apply (Hfirst _ (or_introl eq_refl)). exact Heq.
Qed.




(** ** Bin numbers of the extremes *)

(** The largest present value falls in the last of the four bins and the
    smallest in the first. *)
Lemma bin_id_extremes (x : list num) (bins : list Q) (v : Q) :
  Pandas.qcut_edges x 4 = Some bins ->
  ForallOrdPairs (fun a b => ~ a == b) bins ->
  In (Some v) x ->
  ((forall w, In (Some w) x -> w <= v) ->
   Pandas.bin_id bins true (Some v) = 4%nat) /\
  ((forall w, In (Some w) x -> v <= w) ->
   Pandas.bin_id bins true (Some v) = 1%nat).
Proof.
  intros Hb Hd Hv.
  pose proof (qcut_edges_increasing x bins Hb) as Hinc.
  pose proof (qcut_edges_cover x bins v Hb Hv) as [Hhd Hlast].
  destruct (qcut_edges_shape x bins Hb) as [Hne Hshape].
  set (a := Pandas.QSort.sort (Pandas.dropna x)) in *.
  assert (Hs : StronglySorted (fun x y : Q => is_true (Qle_bool x y)) a)
    by apply sort_sorted.
  assert (Ha : a <> []) by (apply sort_nonempty, Hne).
  assert (Hlen : (1 <= length a)%nat).
  { destruct a; [congruence | simpl; lia]. }
  assert (Hone : Pandas.quantile_sorted a (4 # 4) == nth (length a - 1) a 0)
    by (apply quantile_sorted_one; [exact Ha | reflexivity]).
  rewrite Hshape in *. clear Hshape.
  set (e0 := Pandas.quantile_sorted a (0 # 4)) in *.
  set (e1 := Pandas.quantile_sorted a (1 # 4)) in *.
  set (e2 := Pandas.quantile_sorted a (2 # 4)) in *.
  set (e3 := Pandas.quantile_sorted a (3 # 4)) in *.
  set (e4 := Pandas.quantile_sorted a (4 # 4)) in *.
  cbn [Pandas.increasing] in Hinc.
  rewrite !andb_true_iff, !Qle_bool_iff in Hinc.
  destruct Hinc as [H01 [H12 [H23 [H34 _]]]].
  cbn [hd last] in Hhd, Hlast.
  inversion Hd as [| ? ? Hf0 Hd1]; subst.
  inversion Hd1 as [| ? ? Hf1 Hd2]; subst.
  inversion Hd2 as [| ? ? Hf2 Hd3]; subst.
  inversion Hd3 as [| ? ? Hf3 _]; subst.
  rewrite Forall_forall in Hf0, Hf1, Hf2, Hf3.
  assert (N01 : ~ e0 == e1) by (apply Hf0; cbn; auto).
  assert (N12 : ~ e1 == e2) by (apply Hf1; cbn; auto).
  assert (N23 : ~ e2 == e3) by (apply Hf2; cbn; auto).
  assert (N34 : ~ e3 == e4) by (apply Hf3; cbn; auto).
  assert (S01 : e0 < e1) by (apply Qle_lteq in H01; tauto).
  assert (S12 : e1 < e2) by (apply Qle_lteq in H12; tauto).
  assert (S23 : e2 < e3) by (apply Qle_lteq in H23; tauto).
  assert (S34 : e3 < e4) by (apply Qle_lteq in H34; tauto).
  split.
  - intro Hmax.
    assert (Hv4 : e4 <= v).
    { rewrite Hone. apply Hmax. apply in_dropna, in_sort. apply nth_In. fold a. lia. }
    unfold Pandas.bin_id. cbn [andb hd length Pandas.searchsorted_left].
    assert (Q0 : Qeq_bool v e0 = false).
    { destruct (Qeq_bool v e0) eqn:E; [| reflexivity].
      apply Qeq_bool_eq in E. lra. }
    assert (L0 : Qlt_bool e0 v = true) by (apply Qlt_bool_iff; lra).
    assert (L1 : Qlt_bool e1 v = true) by (apply Qlt_bool_iff; lra).
    assert (L2 : Qlt_bool e2 v = true) by (apply Qlt_bool_iff; lra).
    assert (L3 : Qlt_bool e3 v = true) by (apply Qlt_bool_iff; lra).
    assert (L4 : Qlt_bool e4 v = false) by (apply Qlt_bool_false_iff; lra).
    rewrite Q0, L0, L1, L2, L3, L4. reflexivity.
  - intro Hmin.
    apply bin_id_first; [simpl; lia | exact Hhd |].
    cbn [nth]. apply Qle_trans with e0; [| lra].
    assert (Hzero : e0 == nth 0 a 0)
      by (apply quantile_sorted_zero; reflexivity). rewrite Hzero.
    apply Hmin. apply in_dropna, in_sort. apply nth_In. fold a. lia.
Qed.

(** ** Customer lifetime value: what a returning run keeps and assigns *)

Lemma clv_bases (df : list CLV.row) (out : list CLV.cleaned) :
  CLV.clean_customer_clv df = Ok out -> map CLV.base out = CLV.filled df.
Proof.
  intro Hrun. destruct (clean_customer_clv_ok df out Hrun) as [bins [_ [_ ->]]].
  rewrite map_map. cbn [CLV.base]. apply map_id.
Qed.

(** X8: a returning [clean_customer_clv] keeps every customer, in order;
    a missing clv_estimate or customer_lifespan_days has become 0 and every
    other column is as it was extracted. *)
Theorem X8_clv_rows_kept (df : list CLV.row) (out : list CLV.cleaned) :
  CLV.clean_customer_clv df = Ok out ->
  length out = length df /\
  forall i c, nth_error out i = Some c ->
    exists r,
      nth_error df i = Some r /\
      CLV.clv_estimate (CLV.base c) = Some (match CLV.clv_estimate r with
                                            | Some v => v
                                            | None => 0
                                            end) /\
      CLV.customer_lifespan_days (CLV.base c)
      = Some (match CLV.customer_lifespan_days r with
              | Some v => v
              | None => 0
              end) /\
      CLV.base c
      = CLV.mkRow (CLV.customer_id r) (CLV.customer_name r) (CLV.segment r)
          (CLV.city r) (CLV.state r) (CLV.gender r) (CLV.age r)
          (CLV.total_orders r) (CLV.total_revenue r) (CLV.avg_order_value r)
          (CLV.first_order_date r) (CLV.last_order_date r)
          (CLV.customer_lifespan_days (CLV.base c)) (CLV.clv_estimate (CLV.base c)).
Proof.
  intro Hrun. pose proof (clv_bases df out Hrun) as Hb.
  split.
  - rewrite <- (length_map CLV.base out), Hb. unfold CLV.filled.
    rewrite !length_map. reflexivity.
  - intros i c Hc.
    apply (map_nth_error CLV.base) in Hc. rewrite Hb in Hc.
    unfold CLV.filled in Hc. rewrite map_map in Hc.
    rewrite nth_error_map in Hc.
    destruct (nth_error df i) as [r |] eqn:Er; [| discriminate].
    cbn in Hc. injection Hc as Hc. exists r. split; [reflexivity|].
    rewrite <- Hc. cbn.
    destruct (CLV.clv_estimate r), (CLV.customer_lifespan_days r); repeat split.
Qed.

Lemma X8_clv_rows_kept_witness :
  CLV.clean_customer_clv Samples.clv4 = Ok Samples.clv4_clean /\
  length Samples.clv4_clean = length Samples.clv4.
Proof.
  assert (Hrun : CLV.clean_customer_clv Samples.clv4 = Ok Samples.clv4_clean)
    by (vm_compute; reflexivity).
  split; [exact Hrun|].
  exact (proj1 (X8_clv_rows_kept Samples.clv4 _ Hrun)).
Defined.

(** X9: in a returning run of [clean_customer_clv] a customer whose
    estimate is the largest of the table is Platinum and one whose estimate
    is the smallest is Bronze. *)
Theorem X9_clv_extreme_tiers (df : list CLV.row) (out : list CLV.cleaned) :
  CLV.clean_customer_clv df = Ok out ->
  forall c v, In c out -> CLV.clv_estimate (CLV.base c) = Some v ->
    ((forall c' v', In c' out -> CLV.clv_estimate (CLV.base c') = Some v' -> v' <= v) ->
     CLV.clv_tier c = Some CLV.Platinum) /\
    ((forall c' v', In c' out -> CLV.clv_estimate (CLV.base c') = Some v' -> v <= v') ->
     CLV.clv_tier c = Some CLV.Bronze).
Proof.
  intros Hrun c v Hc Hv.
  destruct (clean_customer_clv_ok df out Hrun) as [bins [Hedges [Hu Hout]]].
  assert (Hd : ForallOrdPairs (fun a b => ~ a == b) bins).
  { apply unique_full. rewrite Hu. symmetry. eapply qcut_edges_length, Hedges. }
  assert (Hcol : forall w, In (Some w) (map CLV.clv_estimate (CLV.filled df)) ->
                 exists c', In c' out /\ CLV.clv_estimate (CLV.base c') = Some w).
  { intros w Hw. apply in_map_iff in Hw. destruct Hw as [r [Hr Hin]].
    exists (CLV.mkCleaned r
              (Pandas.take_label CLV.tier_labels
                 (Pandas.bin_id bins true (CLV.clv_estimate r)))).
    split; [| exact Hr]. rewrite Hout.
    apply (in_map (fun r => CLV.mkCleaned r
                     (Pandas.take_label CLV.tier_labels
                        (Pandas.bin_id bins true (CLV.clv_estimate r))))). exact Hin. }
  rewrite Hout in Hc. apply in_map_iff in Hc. destruct Hc as [r [<- Hr]].
  cbn [CLV.base CLV.clv_tier] in *.
  assert (Hin : In (Some v) (map CLV.clv_estimate (CLV.filled df))).
  { rewrite <- Hv. apply in_map, Hr. }
  destruct (bin_id_extremes _ bins v Hedges Hd Hin) as [Hmax Hmin].
  rewrite Hv. split; intro H.
  - rewrite Hmax; [reflexivity|].
    intros w Hw. destruct (Hcol w Hw) as [c' [Hc' Hw']]. exact (H c' w Hc' Hw').
  - rewrite Hmin; [reflexivity|].
    intros w Hw. destruct (Hcol w Hw) as [c' [Hc' Hw']]. exact (H c' w Hc' Hw').
Qed.

Lemma X9_clv_extreme_tiers_witness :
  CLV.clean_customer_clv Samples.clv4 = Ok Samples.clv4_clean /\
  forall c v, In c Samples.clv4_clean -> CLV.clv_estimate (CLV.base c) = Some v ->
    (forall c' v', In c' Samples.clv4_clean ->
       CLV.clv_estimate (CLV.base c') = Some v' -> v' <= v) ->
    CLV.clv_tier c = Some CLV.Platinum.
Proof.
  assert (Hrun : CLV.clean_customer_clv Samples.clv4 = Ok Samples.clv4_clean)
    by (vm_compute; reflexivity).
  split; [exact Hrun|].
  intros c v Hc Hv.
  exact (proj1 (X9_clv_extreme_tiers Samples.clv4 _ Hrun c v Hc Hv)).
Defined.

(** ** RFM segmentation: the columns of a returning run *)

Lemma astype_int_length (xs : list (option Z)) (zs : list Z) :
  Pandas.astype_int xs = Ok zs -> length zs = length xs.
Proof.
  intro H. apply astype_int_ok in H. rewrite H. symmetry. apply length_map.
Qed.

Lemma rank_first_from_length (seen rest all : list num) :
  length (Pandas.rank_first_from seen rest all) = length rest.
Proof.
  revert seen. induction rest as [| x rest IH]; intro seen; [reflexivity|].
  destruct x; simpl; rewrite IH; reflexivity.
Qed.

Lemma add_scores_bases (df : list RFM.row) (rs fs ms : list Z) :
  length rs = length df -> length fs = length df -> length ms = length df ->
  map RFM.base (RFM.add_scores df rs fs ms) = df.
Proof.
  revert rs fs ms. induction df as [| x df IH]; intros rs fs ms Hr Hf Hm;
    [reflexivity|].
  destruct rs as [| r rs]; [discriminate|].
  destruct fs as [| f fs]; [discriminate|].
  destruct ms as [| m ms]; [discriminate|].
  simpl in *. f_equal. apply IH; lia.
Qed.

(** The three score columns of a returning run, each the label of a bin
    number, and the edges they are cut at. *)
Lemma clean_rfm_columns (df : list RFM.row) (out : list RFM.scored) :
  RFM.clean_rfm df = Ok out ->
  exists rbins fbins mbins rs fs ms,
    Pandas.qcut_edges (map RFM.recency_days df) 4 = Some rbins /\
    Pandas.qcut_edges (Pandas.rank_first (map RFM.frequency df)) 4 = Some fbins /\
    Pandas.qcut_edges (map RFM.monetary df) 4 = Some mbins /\
    ForallOrdPairs (fun a b => ~ a == b) rbins /\
    ForallOrdPairs (fun a b => ~ a == b) mbins /\
    map Some rs
    = map (fun v => Pandas.take_label [4; 3; 2; 1]%Z (Pandas.bin_id rbins true v))
          (map RFM.recency_days df) /\
    map Some fs
    = map (fun v => Pandas.take_label [1; 2; 3; 4]%Z (Pandas.bin_id fbins true v))
          (Pandas.rank_first (map RFM.frequency df)) /\
    map Some ms
    = map (fun v => Pandas.take_label [1; 2; 3; 4]%Z (Pandas.bin_id mbins true v))
          (map RFM.monetary df) /\
    out = RFM.add_scores df rs fs ms /\
    map RFM.base out = df.
Proof.
  unfold RFM.clean_rfm. intro H.
  apply bind_ok in H. destruct H as [rc [Hrc H]].
  apply bind_ok in H. destruct H as [rs [Hrs H]].
  apply bind_ok in H. destruct H as [fc [Hfc H]].
  apply bind_ok in H. destruct H as [fs [Hfs H]].
  apply bind_ok in H. destruct H as [mc [Hmc H]].
  apply bind_ok in H. destruct H as [ms [Hms H]].
  injection H as <-.
  destruct (qcut4_ok _ [4; 3; 2; 1]%Z _ _ eq_refl Hrc) as [rbins [Hrb [Hru Hrcol]]].
  destruct (qcut4_ok _ [1; 2; 3; 4]%Z _ _ eq_refl Hfc) as [fbins [Hfb [_ Hfcol]]].
  destruct (qcut4_ok _ [1; 2; 3; 4]%Z _ _ eq_refl Hmc) as [mbins [Hmb [Hmu Hmcol]]].
  pose proof (astype_int_length _ _ Hrs) as Lr.
  pose proof (astype_int_length _ _ Hfs) as Lf.
  pose proof (astype_int_length _ _ Hms) as Lm.
  apply astype_int_ok in Hrs, Hfs, Hms.
  exists rbins, fbins, mbins, rs, fs, ms.
  split; [exact Hrb|]. split; [exact Hfb|]. split; [exact Hmb|].
  split; [apply unique_full; rewrite Hru; symmetry; eapply qcut_edges_length, Hrb|].
  split; [apply unique_full; rewrite Hmu; symmetry; eapply qcut_edges_length, Hmb|].
  split; [congruence|]. split; [congruence|]. split; [congruence|].
  split; [reflexivity|].
  apply add_scores_bases.
  - rewrite Lr, Hrcol, !length_map. reflexivity.
  - rewrite Lf, Hfcol, length_map. unfold Pandas.rank_first.
    rewrite rank_first_from_length, length_map. reflexivity.
  - rewrite Lm, Hmcol, !length_map. reflexivity.
Qed.

(** Row [i] of a returning run: its base row is row [i] of the input and
    its scores are entries [i] of the three columns. *)
Lemma add_scores_at (df : list RFM.row) (rs fs ms : list Z) (i : nat)
    (s : RFM.scored) :
  nth_error (RFM.add_scores df rs fs ms) i = Some s ->
  nth_error df i = Some (RFM.base s) /\
  nth_error rs i = Some (RFM.R_score s) /\
  nth_error fs i = Some (RFM.F_score s) /\
  nth_error ms i = Some (RFM.M_score s).
Proof.
  revert rs fs ms i.
  induction df as [| x df IH]; intros rs fs ms i H.
  - destruct i; discriminate.
  - destruct rs as [| r rs]; [destruct i; discriminate|].
    destruct fs as [| f fs]; [destruct i; discriminate|].
    destruct ms as [| m ms]; [destruct i; discriminate|].
    destruct i as [| i].
    + cbn in H. injection H as <-. cbn. repeat split.
    + cbn in H. cbn. apply IH. exact H.
Qed.

(** X10: a returning [clean_rfm] keeps every customer, in order, with the
    extracted columns as they were. *)
Theorem X10_rfm_rows_kept (df : list RFM.row) (out : list RFM.scored) :
  RFM.clean_rfm df = Ok out -> map RFM.base out = df.
Proof.
  intro Hrun.
  destruct (clean_rfm_columns df out Hrun)
    as [rb [fb [mb [rs [fs [ms [_ [_ [_ [_ [_ [_ [_ [_ [_ Hb]]]]]]]]]]]]]]].
  exact Hb.
Qed.

Lemma X10_rfm_rows_kept_witness :
  RFM.clean_rfm Samples.rfm4 = Ok Samples.rfm4_scored /\
  map RFM.base Samples.rfm4_scored = Samples.rfm4.
Proof.
  assert (Hrun : RFM.clean_rfm Samples.rfm4 = Ok Samples.rfm4_scored)
    by (vm_compute; reflexivity).
  split; [exact Hrun|].
  exact (X10_rfm_rows_kept Samples.rfm4 _ Hrun).
Defined.

Lemma column_entry {A : Type} (g : A -> option Z) (xs : list A) (zs : list Z)
    (i : nat) (x : A) :
  map Some zs = map g xs -> nth_error xs i = Some x ->
  exists z, g x = Some z /\ nth_error zs i = Some z.
Proof.
  intros Hmap Hx. apply (map_nth_error g) in Hx. rewrite <- Hmap in Hx.
  rewrite nth_error_map in Hx.
  destruct (nth_error zs i) as [z |]; [| discriminate].
  cbn in Hx. injection Hx as Hx. exists z. auto.
Qed.

Lemma rank_first_from_missing (seen rest all : list num) (i : nat) :
  nth_error rest i = Some None ->
  nth_error (Pandas.rank_first_from seen rest all) i = Some None.
Proof.
  revert seen i. induction rest as [| x rest IH]; intros seen i H.
  - destruct i; discriminate.
  - destruct i as [| i].
    + cbn in H. injection H as ->. reflexivity.
    + cbn in H. destruct x; cbn; apply IH; exact H.
Qed.

(** X11: [clean_rfm] raises the label-count ValueError when recency_days is
    the same for all customers, in particular on an empty table and on a
    table of one customer; it also raises when monetary is the same for all
    customers. *)
Theorem X11_rfm_constant_raises (df : list RFM.row) :
  ((length df <= 1)%nat \/
   (forall a b, In a df -> In b df ->
      num_eqb (RFM.recency_days a) (RFM.recency_days b) = true) ->
   RFM.clean_rfm df
   = Raise (ValueError "Bin labels must be one fewer than the number of bin edges")) /\
  ((forall a b, In a df -> In b df ->
      num_eqb (RFM.monetary a) (RFM.monetary b) = true) ->
   exists e, RFM.clean_rfm df = Raise e).
Proof.
  split.
  - intro H.
    assert (Hconst : forall v w,
              In (Some v) (map RFM.recency_days df) ->
              In (Some w) (map RFM.recency_days df) -> v == w).
    { destruct H as [Hlen | Heq].
      - apply short_column_constant. rewrite length_map. exact Hlen.
      - intros v w Hv Hw.
        apply in_map_iff in Hv. destruct Hv as [a [Ha Hina]].
        apply in_map_iff in Hw. destruct Hw as [b [Hb Hinb]].
        specialize (Heq a b Hina Hinb). rewrite Ha, Hb in Heq.
        apply Qeq_bool_eq, Heq. }
    unfold RFM.clean_rfm.
    rewrite (qcut4_constant_raises _ [4; 3; 2; 1]%Z eq_refl Hconst). reflexivity.
  - intro Heq.
    destruct (RFM.clean_rfm df) as [out | e] eqn:E; [| eauto].
    exfalso.
    destruct (clean_rfm_columns df out E)
      as [rb [fb [mb [rs [fs [ms [_ [_ [Hmb [_ [Hd _]]]]]]]]]]].
    assert (Hconst : forall v w,
              In (Some v) (map RFM.monetary df) ->
              In (Some w) (map RFM.monetary df) -> v == w).
    { intros v w Hv Hw.
      apply in_map_iff in Hv. destruct Hv as [a [Ha Hina]].
      apply in_map_iff in Hw. destruct Hw as [b [Hb Hinb]].
      specialize (Heq a b Hina Hinb). rewrite Ha, Hb in Heq.
      apply Qeq_bool_eq, Heq. }
    pose proof (constant_column_edges _ mb Hconst Hmb) as Hsame.
    destruct (qcut_edges_shape _ mb Hmb) as [_ Hshape].
    rewrite Hshape in Hd, Hsame. cbn [nth] in Hsame.
    inversion Hd as [| e0 rest Hfirst _]; subst.
    rewrite Forall_forall in Hfirst. apply (Hfirst _ (or_introl eq_refl)). exact Hsame.
Qed.

Lemma X11_rfm_constant_raises_witness :
  RFM.clean_rfm []
  = Raise (ValueError "Bin labels must be one fewer than the number of bin edges").
Proof.
  apply (proj1 (X11_rfm_constant_raises [])). left. simpl. lia.
Defined.

(** X12: [clean_rfm] raises as soon as one customer has no recency_days, no
    frequency or no monetary. *)
Theorem X12_rfm_missing_value_raises (df : list RFM.row) (r : RFM.row) :
  In r df ->
  RFM.recency_days r = None \/ RFM.frequency r = None \/ RFM.monetary r = None ->
  exists e, RFM.clean_rfm df = Raise e.
Proof.
  intros Hin Hnone.
  destruct (RFM.clean_rfm df) as [out | e] eqn:E; [| eauto].
  exfalso.
  destruct (clean_rfm_columns df out E)
    as [rb [fb [mb [rs [fs [ms [_ [_ [_ [_ [_ [Hr [Hf [Hm _]]]]]]]]]]]]]].
  apply In_nth_error in Hin. destruct Hin as [i Hi].
  destruct Hnone as [Hn | [Hn | Hn]].
  - rewrite map_map in Hr.
    destruct (column_entry _ _ _ _ _ Hr Hi) as [z [Hz _]].
    rewrite Hn in Hz. discriminate.
  - assert (Hrank : nth_error (Pandas.rank_first (map RFM.frequency df)) i = Some None).
    { apply rank_first_from_missing. rewrite nth_error_map, Hi. cbn. rewrite Hn.
      reflexivity. }
    destruct (column_entry _ _ _ _ _ Hf Hrank) as [z [Hz _]]. discriminate.
  - rewrite map_map in Hm.
    destruct (column_entry _ _ _ _ _ Hm Hi) as [z [Hz _]].
    rewrite Hn in Hz. discriminate.
Qed.

Lemma X12_rfm_missing_value_raises_witness :
  exists e,
    RFM.clean_rfm
      (RFM.mkRow (Some 5) (Some "c"%string) (Some "Consumer"%string)
         (Some 12) (Some 2) None :: Samples.rfm4) = Raise e.
Proof.
  apply (X12_rfm_missing_value_raises _
           (RFM.mkRow (Some 5) (Some "c"%string) (Some "Consumer"%string)
              (Some 12) (Some 2) None)).
  - left. reflexivity.
  - right. right. reflexivity.
Defined.

(** ** RFM segmentation: ranks of the frequency column *)

Lemma rank_first_from_nth (seen rest all : list num) (i : nat) (v : Q) :
  nth_error rest i = Some (Some v) ->
  nth_error (Pandas.rank_first_from seen rest all) i
  = Some (Some (inject_Z (Z.of_nat (1 + Pandas.count_lt all v
                                    + Pandas.count_eq (seen ++ firstn i rest) v)))).
Proof.
  revert seen i. induction rest as [| x rest IH]; intros seen i H.
  - destruct i; discriminate.
  - destruct i as [| i].
    + cbn in H. injection H as ->. cbn [firstn]. rewrite app_nil_r. reflexivity.
    + cbn in H. cbn [firstn].
      replace (seen ++ x :: firstn i rest) with ((seen ++ [x]) ++ firstn i rest)
        by (rewrite <- app_assoc; reflexivity).
      destruct x; cbn [Pandas.rank_first_from nth_error]; apply IH; exact H.
Qed.

Lemma dropna_app (a b : list num) :
  Pandas.dropna (a ++ b) = Pandas.dropna a ++ Pandas.dropna b.
Proof.
  induction a as [| x a IH]; [reflexivity|].
  destruct x; simpl; rewrite IH; reflexivity.
Qed.

Lemma count_eq_prefix (xs : list num) (i : nat) (v : Q) :
  (Pandas.count_eq (firstn i xs) v <= Pandas.count_eq xs v)%nat.
Proof.
  unfold Pandas.count_eq.
  rewrite <- (firstn_skipn i xs) at 2.
  rewrite dropna_app, filter_app, length_app. lia.
Qed.

Lemma count_below (l : list Q) (v w : Q) :
  v < w ->
  (length (filter (fun y => Qlt_bool y v) l) + length (filter (fun y => Qeq_bool y v) l)
   <= length (filter (fun y => Qlt_bool y w) l))%nat.
Proof.
  intro Hvw. induction l as [| y l IH]; [simpl; lia|].
  simpl.
  destruct (Qlt_bool y v) eqn:E1; destruct (Qeq_bool y v) eqn:E2;
    destruct (Qlt_bool y w) eqn:E3; simpl; try lia; exfalso;
    repeat match goal with
    | H : Qlt_bool _ _ = true |- _ => apply Qlt_bool_iff in H
    | H : Qlt_bool _ _ = false |- _ => apply Qlt_bool_false_iff in H
    | H : Qeq_bool _ _ = true |- _ => apply Qeq_bool_eq in H
    | H : Qeq_bool _ _ = false |- _ => clear H
    end; lra.
Qed.

(** Ranking by first appearance respects the order of the values. *)
Lemma rank_first_order (xs : list num) (i j : nat) (v w : Q) :
  nth_error xs i = Some (Some v) -> nth_error xs j = Some (Some w) -> v < w ->
  exists rv rw,
    nth_error (Pandas.rank_first xs) i = Some (Some rv) /\
    nth_error (Pandas.rank_first xs) j = Some (Some rw) /\
    rv <= rw.
Proof.
  intros Hi Hj Hvw. unfold Pandas.rank_first.
  rewrite (rank_first_from_nth [] xs xs i v Hi).
  rewrite (rank_first_from_nth [] xs xs j w Hj).
  eexists. eexists. split; [reflexivity|]. split; [reflexivity|].
  rewrite <- Zle_Qle. cbn [app].
  pose proof (count_eq_prefix xs i v) as H1.
  pose proof (count_below (Pandas.dropna xs) v w Hvw) as H2.
  fold (Pandas.count_lt xs v) in H2. fold (Pandas.count_eq xs v) in H2.
  fold (Pandas.count_lt xs w) in H2. lia.
Qed.

(** X13: in a returning run of [clean_rfm] a customer with a larger monetary
    has an M_score at least as high, and a customer with a larger frequency
    has an F_score at least as high. *)
Theorem X13_rfm_scores_monotone (df : list RFM.row) (out : list RFM.scored) :
  RFM.clean_rfm df = Ok out ->
  forall a b, In a out -> In b out ->
    (forall va vb,
       RFM.monetary (RFM.base a) = Some va -> RFM.monetary (RFM.base b) = Some vb ->
       va < vb -> (RFM.M_score a <= RFM.M_score b)%Z) /\
    (forall fa fb,
       RFM.frequency (RFM.base a) = Some fa -> RFM.frequency (RFM.base b) = Some fb ->
       fa < fb -> (RFM.F_score a <= RFM.F_score b)%Z).
Proof.
  intros Hrun a b Ha Hb.
  destruct (clean_rfm_columns df out Hrun)
    as [rb [fb [mb [rs [fs [ms [_ [Hfb [Hmb [_ [_ [_ [Hf [Hm [Hout _]]]]]]]]]]]]]]].
  apply In_nth_error in Ha. destruct Ha as [i Hi].
  apply In_nth_error in Hb. destruct Hb as [j Hj].
  rewrite Hout in Hi, Hj.
  destruct (add_scores_at _ _ _ _ _ _ Hi) as [Hdi [_ [Hfi Hmi]]].
  destruct (add_scores_at _ _ _ _ _ _ Hj) as [Hdj [_ [Hfj Hmj]]].
  pose proof (qcut_edges_length _ _ Hmb) as Lm.
  pose proof (qcut_edges_length _ _ Hfb) as Lf.
  split.
  - intros va vb Hva Hvb Hlt.
    assert (Hxi : nth_error (map RFM.monetary df) i = Some (Some va))
      by (rewrite nth_error_map, Hdi; cbn [option_map]; rewrite Hva; reflexivity).
    assert (Hxj : nth_error (map RFM.monetary df) j = Some (Some vb))
      by (rewrite nth_error_map, Hdj; cbn [option_map]; rewrite Hvb; reflexivity).
    destruct (column_entry _ _ _ _ _ Hm Hxi) as [za [Hza Hza']].
    destruct (column_entry _ _ _ _ _ Hm Hxj) as [zb [Hzb Hzb']].
    destruct (scored_bin _ _ _ _ _ Hmb (nth_error_In _ _ Hxi) Hza)
      as [va' [Eva [Hca Hia]]].
    destruct (scored_bin _ _ _ _ _ Hmb (nth_error_In _ _ Hxj) Hzb)
      as [vb' [Evb [Hcb Hib]]].
    injection Eva as <-. injection Evb as <-.
    rewrite take_label_ascending in Hza, Hzb by assumption.
    assert (Ea : RFM.M_score a = Z.of_nat (Pandas.bin_id mb true (Some va)))
      by congruence.
    assert (Eb : RFM.M_score b = Z.of_nat (Pandas.bin_id mb true (Some vb)))
      by congruence.
    assert (Hmono : (Pandas.bin_id mb true (Some va)
                     <= Pandas.bin_id mb true (Some vb))%nat).
    { apply bin_id_mono; [lia | tauto | lra | tauto]. }
    rewrite Ea, Eb. lia.
  - intros fa fb' Hfa Hfb' Hlt.
    assert (Hxi : nth_error (map RFM.frequency df) i = Some (Some fa))
      by (rewrite nth_error_map, Hdi; cbn [option_map]; rewrite Hfa; reflexivity).
    assert (Hxj : nth_error (map RFM.frequency df) j = Some (Some fb'))
      by (rewrite nth_error_map, Hdj; cbn [option_map]; rewrite Hfb'; reflexivity).
    destruct (rank_first_order _ _ _ _ _ Hxi Hxj Hlt) as [ra [rb' [Hra [Hrb Hle]]]].
    destruct (column_entry _ _ _ _ _ Hf Hra) as [za [Hza Hza']].
    destruct (column_entry _ _ _ _ _ Hf Hrb) as [zb [Hzb Hzb']].
    destruct (scored_bin _ _ _ _ _ Hfb (nth_error_In _ _ Hra) Hza)
      as [va' [Eva [Hca Hia]]].
    destruct (scored_bin _ _ _ _ _ Hfb (nth_error_In _ _ Hrb) Hzb)
      as [vb' [Evb [Hcb Hib]]].
    injection Eva as <-. injection Evb as <-.
    rewrite take_label_ascending in Hza, Hzb by assumption.
    assert (Ea : RFM.F_score a = Z.of_nat (Pandas.bin_id fb true (Some ra)))
      by congruence.
    assert (Eb : RFM.F_score b = Z.of_nat (Pandas.bin_id fb true (Some rb')))
      by congruence.
    assert (Hmono : (Pandas.bin_id fb true (Some ra)
                     <= Pandas.bin_id fb true (Some rb'))%nat).
    { apply bin_id_mono; [lia | tauto | exact Hle | tauto]. }
    rewrite Ea, Eb. lia.
Qed.

Lemma X13_rfm_scores_monotone_witness :
  RFM.clean_rfm Samples.rfm4 = Ok Samples.rfm4_scored /\
  forall a b, In a Samples.rfm4_scored -> In b Samples.rfm4_scored ->
    forall va vb,
      RFM.monetary (RFM.base a) = Some va -> RFM.monetary (RFM.base b) = Some vb ->
      va < vb -> (RFM.M_score a <= RFM.M_score b)%Z.
Proof.
  assert (Hrun : RFM.clean_rfm Samples.rfm4 = Ok Samples.rfm4_scored)
    by (vm_compute; reflexivity).
  split; [exact Hrun|].
  intros a b Ha Hb.
  exact (proj1 (X13_rfm_scores_monotone Samples.rfm4 _ Hrun a b Ha Hb)).
Defined.

(** ** RFM segmentation: scores of the extremes and the end segments *)

(** X14: in a returning run of [clean_rfm] the customers with the largest
    monetary have M_score 4 and those with the smallest have M_score 1; the
    customers with the largest recency_days have R_score 1 and those with
    the smallest have R_score 4. *)
Theorem X14_rfm_extreme_scores (df : list RFM.row) (out : list RFM.scored) :
  RFM.clean_rfm df = Ok out ->
  forall s, In s out ->
    (forall v, RFM.monetary (RFM.base s) = Some v ->
       ((forall r w, In r df -> RFM.monetary r = Some w -> w <= v) ->
        RFM.M_score s = 4%Z) /\
       ((forall r w, In r df -> RFM.monetary r = Some w -> v <= w) ->
        RFM.M_score s = 1%Z)) /\
    (forall v, RFM.recency_days (RFM.base s) = Some v ->
       ((forall r w, In r df -> RFM.recency_days r = Some w -> w <= v) ->
        RFM.R_score s = 1%Z) /\
       ((forall r w, In r df -> RFM.recency_days r = Some w -> v <= w) ->
        RFM.R_score s = 4%Z)).
Proof.
  intros Hrun s Hs.
  destruct (clean_rfm_columns df out Hrun)
    as [rb [fb [mb [rs [fs [ms [Hrb [_ [Hmb [Hdr [Hdm [Hr [_ [Hm [Hout _]]]]]]]]]]]]]]].
  apply In_nth_error in Hs. destruct Hs as [i Hi]. rewrite Hout in Hi.
  destruct (add_scores_at _ _ _ _ _ _ Hi) as [Hd [Hri [_ Hmi]]].
  rewrite map_map in Hr, Hm.
  destruct (column_entry _ _ _ _ _ Hr Hd) as [zr [Hzr Hzr']].
  destruct (column_entry _ _ _ _ _ Hm Hd) as [zm [Hzm Hzm']].
  assert (Er : zr = RFM.R_score s) by congruence.
  assert (Em : zm = RFM.M_score s) by congruence.
  subst zr zm.
  assert (Hbase : In (RFM.base s) df) by (eapply nth_error_In, Hd).
  split.
  - intros v Hv. rewrite Hv in Hzm.
    assert (Hin : In (Some v) (map RFM.monetary df)).
    { rewrite <- Hv. apply in_map, Hbase. }
    destruct (bin_id_extremes _ mb v Hmb Hdm Hin) as [Hmax Hmin].
    split; intro H.
    + rewrite Hmax in Hzm; [cbn in Hzm; congruence|].
      intros w Hw. apply in_map_iff in Hw. destruct Hw as [r [Hw Hr0]].
      exact (H r w Hr0 Hw).
    + rewrite Hmin in Hzm; [cbn in Hzm; congruence|].
      intros w Hw. apply in_map_iff in Hw. destruct Hw as [r [Hw Hr0]].
      exact (H r w Hr0 Hw).
  - intros v Hv. rewrite Hv in Hzr.
    assert (Hin : In (Some v) (map RFM.recency_days df)).
    { rewrite <- Hv. apply in_map, Hbase. }
    destruct (bin_id_extremes _ rb v Hrb Hdr Hin) as [Hmax Hmin].
    split; intro H.
    + rewrite Hmax in Hzr; [cbn in Hzr; congruence|].
      intros w Hw. apply in_map_iff in Hw. destruct Hw as [r [Hw Hr0]].
      exact (H r w Hr0 Hw).
    + rewrite Hmin in Hzr; [cbn in Hzr; congruence|].
      intros w Hw. apply in_map_iff in Hw. destruct Hw as [r [Hw Hr0]].
      exact (H r w Hr0 Hw).
Qed.

Lemma X14_rfm_extreme_scores_witness :
  RFM.clean_rfm Samples.rfm4 = Ok Samples.rfm4_scored /\
  forall s v, In s Samples.rfm4_scored -> RFM.monetary (RFM.base s) = Some v ->
    (forall r w, In r Samples.rfm4 -> RFM.monetary r = Some w -> w <= v) ->
    RFM.M_score s = 4%Z.
Proof.
  assert (Hrun : RFM.clean_rfm Samples.rfm4 = Ok Samples.rfm4_scored)
    by (vm_compute; reflexivity).
  split; [exact Hrun|].
  intros s v Hs Hv.
  exact (proj1 (proj1 (X14_rfm_extreme_scores Samples.rfm4 _ Hrun s Hs) v Hv)).
Defined.

Lemma rfm_label_ends (score : Z) :
  (RFM.rfm_label score = "Lost Customers"%string <-> (score < 4)%Z) /\
  (RFM.rfm_label score = "Champions"%string <-> (10 <= score)%Z).
Proof.
  unfold RFM.rfm_label.
  destruct (Z.leb_spec 10 score); destruct (Z.leb_spec 8 score);
    destruct (Z.leb_spec 6 score); destruct (Z.leb_spec 4 score);
    split; split; intro; try reflexivity; try discriminate; lia.
Qed.

(** X15: in a returning run of [clean_rfm] a customer is in segment
    "Lost Customers" exactly when all three scores are 1, and in segment
    "Champions" exactly when the three scores add up to 10 or more. *)
Theorem X15_rfm_end_segments (df : list RFM.row) (out : list RFM.scored) :
  RFM.clean_rfm df = Ok out ->
  forall s, In s out ->
    (RFM.rfm_segment s = "Lost Customers"%string <->
     RFM.R_score s = 1%Z /\ RFM.F_score s = 1%Z /\ RFM.M_score s = 1%Z) /\
    (RFM.rfm_segment s = "Champions"%string <->
     (10 <= RFM.R_score s + RFM.F_score s + RFM.M_score s)%Z).
Proof.
  intros Hrun s Hs.
  destruct (clean_rfm_ok df out Hrun) as [rbins [mbins [_ [_ Hrows]]]].
  destruct (Hrows s Hs) as [_ [Hr [Hm [Hf [Hsum Hseg]]]]].
  apply take_label_in in Hr, Hm.
  assert (HR : (1 <= RFM.R_score s <= 4)%Z) by (apply label_1_4; left; exact Hr).
  assert (HM : (1 <= RFM.M_score s <= 4)%Z) by (apply label_1_4; right; exact Hm).
  assert (HF : (1 <= RFM.F_score s <= 4)%Z) by (apply label_1_4; right; exact Hf).
  destruct (rfm_label_ends (RFM.RFM_score s)) as [Hlost Hchamp].
  rewrite Hseg, Hlost, Hchamp, Hsum. split; split; intro; lia.
Qed.

Lemma X15_rfm_end_segments_witness :
  RFM.clean_rfm Samples.rfm4 = Ok Samples.rfm4_scored /\
  forall s, In s Samples.rfm4_scored ->
    (RFM.rfm_segment s = "Champions"%string <->
     (10 <= RFM.R_score s + RFM.F_score s + RFM.M_score s)%Z).
Proof.
  assert (Hrun : RFM.clean_rfm Samples.rfm4 = Ok Samples.rfm4_scored)
    by (vm_compute; reflexivity).
  split; [exact Hrun|].
  intros s Hs.
  exact (proj2 (X15_rfm_end_segments Samples.rfm4 _ Hrun s Hs)).
Defined.

(** ** The cleaning stage as a whole *)



(** ** Export paths *)

Lemma append_cancel_prefix (p a b : string) :
  (p ++ a)%string = (p ++ b)%string -> a = b.
Proof.
  induction p as [| c p IH]; simpl; intro H; [exact H|].
  injection H as H. apply IH, H.
Qed.

Lemma length_append (a b : string) :
  String.length (a ++ b) = (String.length a + String.length b)%nat.
Proof. induction a as [| c a IH]; simpl; [reflexivity | rewrite IH; reflexivity]. Qed.

Lemma append_cancel_suffix (a b t : string) :
  (a ++ t)%string = (b ++ t)%string -> a = b.
Proof.
  revert b. induction a as [| c a IH]; intros b H.
  - destruct b as [| d b]; [reflexivity|].
    apply (f_equal String.length) in H. simpl in H.
    rewrite length_append in H. lia.
  - destruct b as [| d b].
    + apply (f_equal String.length) in H. simpl in H.
      rewrite length_append in H. lia.
    + simpl in H. injection H as -> H. f_equal. apply IH, H.
Qed.

Lemma string_app_assoc (a b c : string) :
  ((a ++ b) ++ c)%string = (a ++ b ++ c)%string.
Proof. induction a as [| x a IH]; simpl; [reflexivity | rewrite IH; reflexivity]. Qed.

(** The four files of a run share one directory prefix. *)
Lemma export_paths_shape (output_dir timestamp : string) :
  let prefix :=
    if String.eqb output_dir "" || Exporter.ends_with_slash output_dir
    then output_dir else (output_dir ++ "/")%string in
  Exporter.export_to_csv output_dir timestamp
  = [ ("sales_fact", prefix ++ "sales_fact_" ++ timestamp ++ ".csv");
      ("customer_clv", prefix ++ "customer_clv_" ++ timestamp ++ ".csv");
      ("rfm_segmentation", prefix ++ "rfm_segmentation_" ++ timestamp ++ ".csv");
      ("product_performance",
       prefix ++ "product_performance_" ++ timestamp ++ ".csv") ]%string.
Proof.
  unfold Exporter.export_to_csv, Exporter.file_map, Exporter.path_join.
  cbn [map fst snd Exporter.starts_with_slash append Ascii.eqb Bool.eqb].
  destruct (String.eqb output_dir "" || Exporter.ends_with_slash output_dir).
  - reflexivity.
  - rewrite !string_app_assoc. reflexivity.
Qed.

(** X17: a path written by [export_to_csv] belongs to one table and one run
    date: within a run the four paths are pairwise different, and runs into
    the same directory with different timestamps write different paths. *)
Theorem X17_export_paths_injective (output_dir ts1 ts2 k1 k2 p : string) :
  In (k1, p) (Exporter.export_to_csv output_dir ts1) ->
  In (k2, p) (Exporter.export_to_csv output_dir ts2) ->
  k1 = k2 /\ ts1 = ts2.
Proof.
  rewrite !export_paths_shape. cbv zeta.
  set (prefix := if String.eqb output_dir "" || Exporter.ends_with_slash output_dir
                 then output_dir else (output_dir ++ "/")%string).
  cbn [In].
  intros [H1 | [H1 | [H1 | [H1 | []]]]] [H2 | [H2 | [H2 | [H2 | []]]]];
    injection H1 as <- <-; injection H2 as <- H2;
    apply append_cancel_prefix in H2; cbn [append] in H2;
    try discriminate;
    injection H2 as H2; apply append_cancel_suffix in H2; auto.
Qed.

Lemma X17_export_paths_injective_witness :
  "sales_fact"%string = "sales_fact"%string /\ "20241231"%string = "20241231"%string.
Proof.
  apply (X17_export_paths_injective "cleaned_data" "20241231" "20241231"
           "sales_fact" "sales_fact" "cleaned_data/sales_fact_20241231.csv").
  - vm_compute. left. reflexivity.
  - vm_compute. left. reflexivity.
Defined.

(** ** Summary report *)










Lemma text_eqb_eq (a b : text) : text_eqb a b = true <-> a = b.
Proof.
  destruct a as [s |], b as [t |]; simpl.
  - rewrite String.eqb_eq. split; [intros ->; reflexivity | intro H; congruence].
  - split; discriminate.
  - split; discriminate.
  - split; reflexivity.
Qed.

Lemma unique_text_in (xs : list text) (x : text) :
  In x (Summary.unique_text xs) <-> In x xs.
Proof.
  induction xs as [| y xs IH]; [reflexivity|].
  cbn [Summary.unique_text In]. rewrite filter_In, IH. split.
  - intros [H | [H _]]; auto.
  - intros [H | H]; [left; exact H|].
    destruct (text_eqb y x) eqn:E.
    + left. apply text_eqb_eq, E.
    + right. split; [exact H | reflexivity].
Qed.

Lemma all_strings_none (values : list text) :
  Summary.all_strings values = None <-> In None values.
Proof.
  induction values as [| x values IH]; cbn [Summary.all_strings In].
  - split; [discriminate | contradiction].
  - destruct x as [s |].
    + destruct (Summary.all_strings values) as [items |]; cbn [option_map].
      * split; [discriminate|]. intros [H | H]; [discriminate|].
        apply IH in H. discriminate.
      * split; [intros _; right; apply IH; reflexivity | reflexivity].
    + split; [intros _; left; reflexivity | reflexivity].
Qed.

Lemma print_summary_type_error (sf : list Sales.cleaned) (clv : list CLV.cleaned) :
  (exists msg, Summary.print_summary sf clv = Summary.TypeError msg) <->
  (exists c, In c sf /\ Sales.category (Sales.base c) = None).
Proof.
  unfold Summary.print_summary. cbv zeta. unfold Summary.join.
  destruct (Summary.all_strings
              (Summary.unique_text (map Sales.category (map Sales.base sf))))
    as [items |] eqn:E.
  - split.
    + intros [msg H]. discriminate.
    + intros [c [Hc Hnone]]. exfalso.
      assert (Hin : In None (Summary.unique_text
                               (map Sales.category (map Sales.base sf)))).
      { apply unique_text_in. rewrite map_map, <- Hnone.
        apply (in_map (fun c => Sales.category (Sales.base c))), Hc. }
      apply all_strings_none in Hin. congruence.
  - split.
    + intros _. apply all_strings_none in E.
      apply (proj1 (unique_text_in _ _)) in E.
      rewrite map_map in E. apply in_map_iff in E.
      destruct E as [c [Hnone Hc]]. exists c. auto.
    + intros _. eexists. reflexivity.
Qed.

(** X19: [print_summary] raises the TypeError of the category line exactly
    when some row of the sales fact has no category.  Cleaning does not
    repair a missing category, so a surviving raw row without category makes
    the report on the cleaned table raise. *)
Theorem X19_summary_raises_on_missing_category :
  (forall sf clv,
     (exists msg, Summary.print_summary sf clv = Summary.TypeError msg) <->
     (exists c, In c sf /\ Sales.category (Sales.base c) = None)) /\
  (forall df sf clv r,
     Sales.clean_sales_fact df = Ok sf ->
     In r (Sales.filtered df) -> Sales.category r = None ->
     exists msg, Summary.print_summary sf clv = Summary.TypeError msg).
Proof.
  split; [exact print_summary_type_error|].
  intros df sf clv r Hrun Hr Hnone. apply print_summary_type_error.
  exists (Sales.clean_row (Sales.shipping_fill df) (Sales.margin_cap df) r).
  rewrite clean_sales_fact_rows in Hrun. injection Hrun as <-.
  split; [apply in_map, Hr|]. cbn. rewrite Hnone. reflexivity.
Qed.

Lemma X19_summary_raises_on_missing_category_witness :
  exists msg,
    Summary.print_summary
      (Samples.run (Sales.clean_sales_fact
         [Sales.mkRow (Some 9) None None None None None None None None None None
            None None None None None None None None None None None None
            (Some 1) None None None (Some 10) None None None None]))
      Samples.clv4_clean
    = Summary.TypeError msg.
Proof.
  apply (proj2 X19_summary_raises_on_missing_category
           [Sales.mkRow (Some 9) None None None None None None None None None None
              None None None None None None None None None None None None
              (Some 1) None None None (Some 10) None None None None]
           _ Samples.clv4_clean
           (Sales.mkRow (Some 9) None None None None None None None None None None
              None None None None None None None None None None None None
              (Some 1) None None None (Some 10) None None None None)).
  - vm_compute. reflexivity.
  - vm_compute. left. reflexivity.
  - reflexivity.
Defined.
